(** * neat-to-wave-converter: a shallow embedding of [run.py]

    Python strings are modelled as [string]s of UTF-8 bytes (a lone
    surrogate, which the [unicode_escape] codec can produce, as its
    three-byte form); the header names are written as the source has them.

    A row of a [csv.DictReader] is a dictionary from header names to field
    values; we model it as an association list in which each header occurs
    once.  [c[k]] raises [KeyError] when [k] is not a header.

    [datetime.strptime], [Decimal(s)] on a string, [str.strip] and
    [str.lower] are library functions that the adapters only call: the
    adapters are parameterised over them ([Variable]s of the section
    below), so every theorem holds for every date parser, every
    string-to-decimal conversion and every strip and lower-case function,
    Python's among them.  The arithmetic on decimals ([>], unary [-],
    [quantize], [+], [str]) is modelled under the default context.
    Concrete ASCII instances of the parameters run the adapters on
    examples.  *)

From Stdlib Require Import String Ascii List ZArith NArith Bool Lia.
Import ListNotations.
Open Scope string_scope.

(** ** Exceptions and the result of a Python computation *)

Inductive exn : Type :=
| KeyError (key : string)
| StrptimeError (data fmt : string)   (* ValueError raised by strptime *)
| InvalidOperation                    (* decimal.InvalidOperation *)
| Overflow                            (* decimal.Overflow *)
| ValueError (msg : string).

Inductive res (A : Type) : Type :=
| Ok (a : A)
| Err (e : exn).
Arguments Ok {A} a.
Arguments Err {A} e.

Definition bind {A B} (m : res A) (f : A -> res B) : res B :=
  match m with
  | Ok a => f a
  | Err e => Err e
  end.

Notation "x <- m ;; k" := (bind m (fun x => k))
  (at level 61, m at next level, right associativity).

(** ** Strings *)

Definition char_eqb (a b : ascii) : bool := Ascii.eqb a b.

(** [s.replace(old, new)] for a one-character [old]. *)
Fixpoint replace1 (old : ascii) (new s : string) : string :=
  match s with
  | EmptyString => EmptyString
  | String a s' =>
      if char_eqb a old then new ++ replace1 old new s'
      else String a (replace1 old new s')
  end.

(** ASCII whitespace as [str.isspace] has it: \t \n \v \f \r, the
    separators 0x1c-0x1f and the space. *)
Definition is_space (a : ascii) : bool :=
  let n := nat_of_ascii a in
  ((9 <=? n) && (n <=? 13) || (28 <=? n) && (n <=? 32))%nat.

Fixpoint ascii_lstrip (s : string) : string :=
  match s with
  | EmptyString => EmptyString
  | String a s' => if is_space a then ascii_lstrip s' else s
  end.

Definition rev_string (s : string) : string :=
  string_of_list_ascii (rev (list_ascii_of_string s)).

(** [s.strip()] on an ASCII string. *)
Definition ascii_strip (s : string) : string :=
  rev_string (ascii_lstrip (rev_string (ascii_lstrip s))).

Definition lower_char (a : ascii) : ascii :=
  let n := nat_of_ascii a in
  if ((65 <=? n) && (n <=? 90))%nat then ascii_of_nat (n + 32) else a.

(** [s.lower()] on an ASCII string. *)
Fixpoint ascii_lower (s : string) : string :=
  match s with
  | EmptyString => EmptyString
  | String a s' => String (lower_char a) (ascii_lower s')
  end.

(** Truthiness of a Python string. *)
Definition nonempty (s : string) : bool :=
  match s with EmptyString => false | _ => true end.

(** Decimal digits of a natural number, as [str(int)] prints them. *)
Definition digit_char (d : N) : ascii := ascii_of_N (48 + d).

Fixpoint digits_aux (fuel : nat) (n : N) (acc : string) : string :=
  match fuel with
  | O => acc
  | S fuel' =>
      let acc' := String (digit_char (n mod 10)) acc in
      if (n <? 10)%N then acc' else digits_aux fuel' (n / 10)%N acc'
  end.

Definition N_to_string (n : N) : string :=
  digits_aux (S (N.to_nat (N.log2 n))) n EmptyString.

Definition nat_to_string (n : nat) : string := N_to_string (N.of_nat n).

(** ["%+d"] *)
Definition Z_to_signed_string (z : Z) : string :=
  if (z <? 0)%Z then "-" ++ N_to_string (Z.to_N (- z))
  else "+" ++ N_to_string (Z.to_N z).

Fixpoint repeat_char (n : nat) (a : ascii) : string :=
  match n with O => EmptyString | S n' => String a (repeat_char n' a) end.

(** ** Dictionaries: rows of a [csv.DictReader] *)

Definition row := list (string * string).

Fixpoint dict_get (c : row) (k : string) : option string :=
  match c with
  | [] => None
  | (k', v) :: c' => if String.eqb k k' then Some v else dict_get c' k
  end.

(** [c[k]] *)
Definition getitem (c : row) (k : string) : res string :=
  match dict_get c k with
  | Some v => Ok v
  | None => Err (KeyError k)
  end.

(** ** [datetime] *)

Record datetime : Type := mkdt {
  year : Z; month : Z; day : Z; hour : Z; minute : Z; second : Z
}.

(** [a <= b] on datetimes: the lexicographic order of the fields. *)
Definition dt_key (d : datetime) : list Z :=
  [year d; month d; day d; hour d; minute d; second d].

Fixpoint lex_le (a b : list Z) : bool :=
  match a, b with
  | x :: a', y :: b' => (x <? y)%Z || ((x =? y)%Z && lex_le a' b')
  | _, _ => true
  end.

Definition dt_le (a b : datetime) : bool := lex_le (dt_key a) (dt_key b).
Definition dt_lt (a b : datetime) : bool := negb (dt_le b a).

Definition pad2 (z : Z) : string :=
  let s := N_to_string (Z.to_N z) in
  if (z <? 10)%Z then "0" ++ s else s.

(** [d.strftime("%Y-%m-%d")] (glibc does not pad [%Y]). *)
Definition strftime_Ymd (d : datetime) : string :=
  N_to_string (Z.to_N (year d)) ++ "-" ++ pad2 (month d) ++ "-" ++ pad2 (day d).

(** ** The canonical record: [{description, amount, date}] *)

Record record : Type := mkrec {
  r_description : string;
  r_amount : string;
  r_date : string
}.

(** ** [decimal.Decimal] under the default context

    The default context: precision 28, rounding ROUND_HALF_EVEN, exponents
    between Emin = -999999 and Emax = 999999, clamp 0, and the traps
    InvalidOperation, DivisionByZero and Overflow: a trapped signal raises
    its exception, the other signals only set flags, which the program
    never reads.

    A finite decimal is [(-1)^sign * coef * 10^exp]; a NaN, quiet or
    signalling, has a sign and a payload (the digits of its diagnostic, 0
    for none). *)

Inductive decimal : Type :=
| DFinite (sign : bool) (coef : N) (exp : Z)
| DInf (sign : bool)
| DNaN (sign : bool) (payload : N)
| DsNaN (sign : bool) (payload : N).

Definition prec : Z := 28.
Definition Emax : Z := 999999.
Definition Emin : Z := (-999999)%Z.

(** [context.Etiny()] and [context.Etop()] *)
Definition Etiny : Z := (Emin - prec + 1)%Z.
Definition Etop : Z := (Emax - prec + 1)%Z.

(** Number of digits of a coefficient, as [len(self._int)]. *)
Definition ndigits (c : N) : Z := Z.of_nat (String.length (N_to_string c)).

(** The coefficient [c] with its last [k] digits dropped, rounded half to
    even ([_round_half_even]). *)
Definition round_half_even (c k : N) : N :=
  if (k =? 0)%N then c
  else
    let D := (10 ^ k)%N in
    let q := (c / D)%N in
    let r := (c mod D)%N in
    let half := (D / 2)%N in
    if (half <? r)%N || ((r =? half)%N && N.odd q) then (q + 1)%N else q.

(** [_fix]: a result brought into the context.  A zero has its exponent
    clamped to [[Etiny, Emax]].  A nonzero value whose adjusted exponent
    exceeds [Emax] overflows, and Overflow is trapped.  Otherwise the
    coefficient is rounded half to even to at most [prec] digits and to an
    exponent of at least [Etiny] (a subnormal result); a rounding that
    carries the exponent above [Etop] overflows as well. *)
Definition dec_fix (s : bool) (c : N) (e : Z) : res decimal :=
  if (c =? 0)%N then Ok (DFinite s 0 (Z.min (Z.max e Etiny) Emax))
  else
    let exp_min := (ndigits c + e - prec)%Z in
    if (Etop <? exp_min)%Z then Err Overflow
    else
      let exp_min := Z.max exp_min Etiny in
      if (e <? exp_min)%Z then
        (* a value below half a unit of [10^exp_min] is first replaced by
           [10^(exp_min - 1)], which rounds the same way *)
        let q :=
          if (ndigits c + e - exp_min <? 0)%Z then round_half_even 1 1
          else round_half_even c (Z.to_N (exp_min - e)) in
        let '(q, exp_min) :=
          if (prec <? ndigits q)%Z then ((q / 10)%N, (exp_min + 1)%Z) else (q, exp_min) in
        if (Etop <? exp_min)%Z then Err Overflow else Ok (DFinite s q exp_min)
      else Ok (DFinite s c e).

(** [_fix_nan]: a payload keeps its last [prec] digits. *)
Definition fix_nan (s : bool) (p : N) : decimal := DNaN s (p mod 10 ^ Z.to_N prec)%N.

(** *** An example of [Decimal(s)] for ASCII literals

    The adapters call [Decimal(s)] on the strings of the file; the theorems
    below hold for every function from strings to decimals.  This one reads
    ASCII literals as CPython does, and runs the adapters on examples:
    surrounding whitespace is stripped and every underscore dropped; then
    an optional sign comes before digits with an optional point and an
    optional exponent, or before [Inf], [Infinity], [NaN] or [sNaN] in any
    case, a NaN with optional payload digits.  It is partial: a string with
    a non-ASCII character fails (CPython also reads Unicode digits and
    whitespace), and exponents are not bounded (CPython rejects those
    beyond about 10^18). *)

Definition is_digit (a : ascii) : bool :=
  let n := nat_of_ascii a in ((48 <=? n) && (n <=? 57))%nat.

Fixpoint take_digits (s : string) : string * string :=
  match s with
  | String a s' =>
      if is_digit a then let (d, r) := take_digits s' in (String a d, r)
      else (EmptyString, s)
  | EmptyString => (EmptyString, EmptyString)
  end.

Fixpoint digits_value (s : string) (acc : N) : N :=
  match s with
  | EmptyString => acc
  | String a s' => digits_value s' (acc * 10 + (N_of_ascii a - 48))%N
  end.

Definition all_digits (s : string) : bool := forallb is_digit (list_ascii_of_string s).

Fixpoint drop_underscores (s : string) : string :=
  match s with
  | EmptyString => EmptyString
  | String a s' =>
      if char_eqb a "_"%char then drop_underscores s' else String a (drop_underscores s')
  end.

Definition parse_exponent (s : string) : option Z :=
  match s with
  | EmptyString => Some 0%Z
  | String e r =>
      if char_eqb (lower_char e) "e"%char then
        let '(neg, r') :=
          match r with
          | String "-"%char r' => (true, r')
          | String "+"%char r' => (false, r')
          | _ => (false, r)
          end in
        let (ds, rest) := take_digits r' in
        if nonempty ds && negb (nonempty rest) then
          let v := Z.of_N (digits_value ds 0) in
          Some (if neg then (- v)%Z else v)
        else None
      else None
  end.

(** ["nan"] or ["snan"] followed by payload digits, in lower case. *)
Definition parse_nan (neg : bool) (lb : string) : option decimal :=
  let n := String.length lb in
  if String.prefix "snan" lb && all_digits (substring 4 (n - 4) lb) then
    Some (DsNaN neg (digits_value (substring 4 (n - 4) lb) 0))
  else if String.prefix "nan" lb && all_digits (substring 3 (n - 3) lb) then
    Some (DNaN neg (digits_value (substring 3 (n - 3) lb) 0))
  else None.

Definition decimal_of_ascii (s0 : string) : res decimal :=
  let s := drop_underscores (ascii_strip s0) in
  let '(neg, body) :=
    match s with
    | String "-"%char r => (true, r)
    | String "+"%char r => (false, r)
    | _ => (false, s)
    end in
  let lb := ascii_lower body in
  if String.eqb lb "inf" || String.eqb lb "infinity" then Ok (DInf neg)
  else match parse_nan neg lb with
  | Some d => Ok d
  | None =>
    let (intpart, r1) := take_digits body in
    let '(fracpart, r2) :=
      match r1 with
      | String "."%char r => take_digits r
      | _ => (EmptyString, r1)
      end in
    let has_point := match r1 with String "."%char _ => true | _ => false end in
    let r2' := if has_point then r2 else r1 in
    if negb (nonempty intpart || nonempty fracpart) then Err InvalidOperation
    else
      match parse_exponent r2' with
      | Some ex =>
          Ok (DFinite neg (digits_value (intpart ++ fracpart) 0)
                (ex - Z.of_nat (String.length fracpart))%Z)
      | None => Err InvalidOperation
      end
  end.

(** *** [str(d)] *)

Definition dec_str (d : decimal) : string :=
  match d with
  | DNaN s p =>
      (if s then "-" else "") ++ "NaN" ++ (if (p =? 0)%N then "" else N_to_string p)
  | DsNaN s p =>
      (if s then "-" else "") ++ "sNaN" ++ (if (p =? 0)%N then "" else N_to_string p)
  | DInf s => (if s then "-" else "") ++ "Infinity"
  | DFinite s c e =>
      let sign := if s then "-" else "" in
      let ds := N_to_string c in
      let len := Z.of_nat (String.length ds) in
      let leftdigits := (e + len)%Z in
      let dotplace :=
        if (e <=? 0)%Z && (-6 <? leftdigits)%Z then leftdigits else 1%Z in
      let '(intpart, fracpart) :=
        if (dotplace <=? 0)%Z then
          ("0", "." ++ repeat_char (Z.to_nat (- dotplace)) "0"%char ++ ds)
        else if (len <=? dotplace)%Z then
          (ds ++ repeat_char (Z.to_nat (dotplace - len)) "0"%char, "")
        else
          (substring 0 (Z.to_nat dotplace) ds,
           "." ++ substring (Z.to_nat dotplace) (Z.to_nat (len - dotplace)) ds) in
      let ex :=
        if (leftdigits =? dotplace)%Z then ""
        else "E" ++ Z_to_signed_string (leftdigits - dotplace) in
      sign ++ intpart ++ fracpart ++ ex
  end.

(** *** [d > 0]: an ordering comparison with a NaN, quiet or signalling,
    signals InvalidOperation. *)
Definition dec_gt0 (d : decimal) : res bool :=
  match d with
  | DNaN _ _ | DsNaN _ _ => Err InvalidOperation
  | DInf s => Ok (negb s)
  | DFinite s c _ => Ok (negb s && (0 <? c)%N)
  end.

(** *** [-d]: a signalling NaN signals InvalidOperation, a quiet NaN is
    returned as it is; a zero is negated to its absolute value (the
    rounding is not ROUND_FLOOR); the result is brought into the context. *)
Definition dec_neg (d : decimal) : res decimal :=
  match d with
  | DsNaN _ _ => Err InvalidOperation
  | DNaN s p => Ok (fix_nan s p)
  | DInf s => Ok (DInf (negb s))
  | DFinite s c e =>
      if (c =? 0)%N then dec_fix false c e else dec_fix (negb s) c e
  end.

(** *** [d.quantize(Decimal(10^t), ROUND_HALF_UP)] *)

(** [_rescale] with ROUND_HALF_UP on a nonzero coefficient: a value with
    no digit left at exponent [t] is first replaced by [10^(t-1)], which
    rounds the same way. *)
Definition rescale_half_up (c : N) (e t : Z) : N :=
  if (t <=? e)%Z then (c * 10 ^ Z.to_N (e - t))%N
  else
    let '(c, e) := if (ndigits c + e - t <? 0)%Z then (1%N, (t - 1)%Z) else (c, e) in
    let D := (10 ^ Z.to_N (t - e))%N in
    ((c + D / 2) / D)%N.

Definition quantize_half_up (d : decimal) (t : Z) : res decimal :=
  match d with
  | DsNaN _ _ => Err InvalidOperation
  | DNaN s p => Ok (fix_nan s p)
  | DInf _ => Err InvalidOperation
  | DFinite s c e =>
      if negb ((Etiny <=? t)%Z && (t <=? Emax)%Z) then Err InvalidOperation
      else if (c =? 0)%N then dec_fix s 0 t
      else
        let adjusted := (e + ndigits c - 1)%Z in
        if (Emax <? adjusted)%Z then Err InvalidOperation
        else if (prec <? adjusted - t + 1)%Z then Err InvalidOperation
        else
          let c' := rescale_half_up c e t in
          if (Emax <? t + ndigits c' - 1)%Z then Err InvalidOperation
          else if (prec <? ndigits c')%Z then Err InvalidOperation
          else dec_fix s c' t
  end.

(** *** [a + b]

    A signalling NaN operand signals InvalidOperation; otherwise a quiet NaN
    operand is the result (the first one); [Inf + -Inf] signals
    InvalidOperation.  Finite operands are added as [_pydecimal] does, and
    the result is brought into the context by [_fix]. *)

Definition signed (s : bool) (c : N) : Z := if s then (- Z.of_N c)%Z else Z.of_N c.

(** [_normalize(op1, op2, prec)]: both coefficients brought to one
    exponent; an operand far below the other's precision is replaced by a
    single unit just below it, which rounds the same way. *)
Definition normalize (c1 : N) (e1 : Z) (c2 : N) (e2 : Z) : N * N * Z :=
  if (e1 <? e2)%Z then
    let x := (e2 + Z.min (-1) (ndigits c2 - prec - 2))%Z in
    let '(c1, e1) := if (ndigits c1 + e1 - 1 <? x)%Z then (1%N, x) else (c1, e1) in
    (c1, (c2 * 10 ^ Z.to_N (e2 - e1))%N, e1)
  else
    let x := (e1 + Z.min (-1) (ndigits c1 - prec - 2))%Z in
    let '(c2, e2) := if (ndigits c2 + e2 - 1 <? x)%Z then (1%N, x) else (c2, e2) in
    ((c1 * 10 ^ Z.to_N (e1 - e2))%N, c2, e2).

Definition dec_add (a b : decimal) : res decimal :=
  match a, b with
  | DsNaN _ _, _ => Err InvalidOperation
  | _, DsNaN _ _ => Err InvalidOperation
  | DNaN s p, _ => Ok (fix_nan s p)
  | _, DNaN s p => Ok (fix_nan s p)
  | DInf s1, DInf s2 => if Bool.eqb s1 s2 then Ok (DInf s1) else Err InvalidOperation
  | DInf s1, _ => Ok (DInf s1)
  | _, DInf s2 => Ok (DInf s2)
  | DFinite s1 c1 e1, DFinite s2 c2 e2 =>
      let e := Z.min e1 e2 in
      if (c1 =? 0)%N && (c2 =? 0)%N then
        (* a zero sum of zeros is negative only when both are *)
        dec_fix (s1 && s2) 0 e
      else if (c1 =? 0)%N then
        let e' := Z.max e (e2 - prec - 1) in
        dec_fix s2 (c2 * 10 ^ Z.to_N (e2 - e'))%N e'
      else if (c2 =? 0)%N then
        let e' := Z.max e (e1 - prec - 1) in
        dec_fix s1 (c1 * 10 ^ Z.to_N (e1 - e'))%N e'
      else
        let '(c1', c2', e') := normalize c1 e1 c2 e2 in
        let v := (signed s1 c1' + signed s2 c2')%Z in
        if (v =? 0)%Z then dec_fix false 0 e
        else dec_fix (v <? 0)%Z (Z.to_N (Z.abs v)) e'
  end.

(** ** The source adapters *)

Inductive InputSource : Type :=
| AIRWALLEX | CURRENXIE | ERSTEBANK | NEAT | PAYONEER | REVOLUT | STARLING | WISE.

Inductive OutputSource : Type := FREEAGENT | WAVE.

(** [for i, c in enumerate(content): ...; result += [...]]: the body of
    the loop maps the [i]-th row to [None] ([continue]) or to one record. *)
Fixpoint extract_loop (body : nat -> row -> res (option record)) (i : nat)
    (rows : list row) : res (list record) :=
  match rows with
  | [] => Ok []
  | c :: rest =>
      o <- body i c ;;
      out <- extract_loop body (S i) rest ;;
      Ok (match o with Some r => r :: out | None => out end)
  end.

Definition opt_list {A} (o : option A) : list A :=
  match o with Some a => [a] | None => [] end.

(** [AirwallexType(v)] *)
Inductive AirwallexType : Type := DEPOSIT | FEE | PAYOUT.

Definition AirwallexType_of (v : string) : res AirwallexType :=
  if String.eqb v "Deposit" then Ok DEPOSIT
  else if String.eqb v "Fee" then Ok FEE
  else if String.eqb v "Payout" then Ok PAYOUT
  else Err (ValueError ("'" ++ v ++ "' is not a valid AirwallexType")).

Definition AirwallexType_eqb (a b : AirwallexType) : bool :=
  match a, b with
  | DEPOSIT, DEPOSIT | FEE, FEE | PAYOUT, PAYOUT => true
  | _, _ => false
  end.

(** [Decimal(".01")] as the quantize target: exponent -2. *)
Definition cents : Z := (-2)%Z.

Section Adapters.

(** [datetime.strptime(data, fmt)]: [None] when [data] does not match. *)
Variable strptime : string -> string -> option datetime.

(** [Decimal(s)]: [Err InvalidOperation] when [s] is not a decimal literal. *)
Variable Decimal : string -> res decimal.

(** [s.strip()] and [s.lower()] *)
Variable strip : string -> string.
Variable lower : string -> string.

Definition py_strptime (data fmt : string) : res datetime :=
  match strptime data fmt with
  | Some d => Ok d
  | None => Err (StrptimeError data fmt)
  end.

Definition neat_body (start_datetime : datetime) (i : nat) (c : row)
    : res (option record) :=
  let description_header := "Description" in
  let transaction_amount_header := "Transaction Amount" in
  let transaction_date_header := "Transaction Date" in
  d <- getitem c transaction_date_header ;;
  c_dt <- py_strptime d "%Y-%m-%d %H:%M:%S" ;;
  if dt_le c_dt start_datetime then Ok None else
  desc <- getitem c description_header ;;
  amount <- getitem c transaction_amount_header ;;
  Ok (Some (mkrec desc amount (strftime_Ymd c_dt))).

Definition _extract_neat_data (start_datetime : datetime) (content : list row) :=
  extract_loop (neat_body start_datetime) 0 content.

Definition airwallex_body (start_datetime : datetime) (i : nat) (c : row)
    : res (option record) :=
  let amount_header := "Net Amount" in
  let transaction_date_header := "Created At" in
  let transaction_type_header := "Type" in
  let remitter_header := "Remitter Name" in
  let beneficiary_header := "Beneficiary Bank Account Name" in
  d <- getitem c transaction_date_header ;;
  c_dt <- py_strptime d "%Y-%m-%d %H:%M:%S" ;;
  if dt_le c_dt start_datetime then Ok None else
  description <- getitem c transaction_type_header ;;
  t1 <- (v <- getitem c transaction_type_header ;; AirwallexType_of v) ;;
  description <-
    (if AirwallexType_eqb t1 DEPOSIT then
       rem <- getitem c remitter_header ;; Ok (description ++ " from " ++ rem)
     else
       t2 <- (v <- getitem c transaction_type_header ;; AirwallexType_of v) ;;
       if AirwallexType_eqb t2 PAYOUT then
         ben <- getitem c beneficiary_header ;; Ok (description ++ " to " ++ ben)
       else Ok description) ;;
  amount <- getitem c amount_header ;;
  Ok (Some (mkrec description amount (strftime_Ymd c_dt))).

Definition _extract_airwallex_data (start_datetime : datetime) (content : list row) :=
  extract_loop (airwallex_body start_datetime) 0 content.

(** [s.replace(".", "").replace(",", ".")] *)
Definition continental_to_point (s : string) : string :=
  replace1 ","%char "." (replace1 "."%char "" s).

Definition erste_body (start_datetime : datetime) (i : nat) (c : row)
    : res (option record) :=
  let transaction_date_header := "Datum izvršenja" in
  let description_header := "Opis plaæanja, kurs" in
  let deposit_header := "Uplate" in
  let payment_header := "Isplate" in
  let beneficiary_header := "Primalac" in
  d <- getitem c transaction_date_header ;;
  c_dt <- py_strptime d "%d.%m.%Y" ;;
  if dt_le c_dt start_datetime then Ok None else
  description <- getitem c description_header ;;
  inbound <- (v <- getitem c deposit_header ;; Ok (continental_to_point v)) ;;
  outbound <- (v <- getitem c payment_header ;; Ok (continental_to_point v)) ;;
  if nonempty inbound && nonempty outbound then
    Err (ValueError ("Both inbound and outbound transactions for " ++ description
                     ++ " (line " ++ nat_to_string i ++ ")"))
  else if nonempty inbound then
    beneficiary <- getitem c beneficiary_header ;;
    let description :=
      if nonempty beneficiary then description ++ " from " ++ beneficiary
      else description in
    Ok (Some (mkrec description inbound (strftime_Ymd c_dt)))
  else
    let amount := "-" ++ outbound in
    beneficiary <- getitem c beneficiary_header ;;
    let description :=
      if nonempty beneficiary then description ++ " to " ++ beneficiary
      else description in
    Ok (Some (mkrec description amount (strftime_Ymd c_dt))).

Definition _extract_erste_data (start_datetime : datetime) (content : list row) :=
  extract_loop (erste_body start_datetime) 0 content.

(** The reimbursement branch shared by the Revolut and Starling adapters:
    [if Decimal(a) > 0: continue] then
    [str(-Decimal(a).quantize(Decimal(".01"), ROUND_HALF_UP))]. *)
Definition reimbursement_amount (a : string) : res (option string) :=
  d <- Decimal a ;;
  pos <- dec_gt0 d ;;
  if pos then Ok None else
  d' <- Decimal a ;;
  q <- quantize_half_up d' cents ;;
  n <- dec_neg q ;;
  Ok (Some (dec_str n)).

Definition revolut_body (start_datetime : datetime) (is_reimbursement : bool)
    (i : nat) (c : row) : res (option record) :=
  let transaction_date_header := "Completed Date" in
  let description_header := "Description" in
  let amount_header := "Amount" in
  let state_header := "State" in
  st <- getitem c state_header ;;
  if negb (String.eqb st "COMPLETED") then Ok None else
  d <- getitem c transaction_date_header ;;
  c_dt <- py_strptime d "%Y-%m-%d %H:%M:%S" ;;
  if dt_le c_dt start_datetime then Ok None else
  description <- (v <- getitem c description_header ;; Ok (replace1 ","%char "" v)) ;;
  amount <-
    (if is_reimbursement then
       a <- getitem c amount_header ;; reimbursement_amount a
     else a <- getitem c amount_header ;; Ok (Some a)) ;;
  match amount with
  | None => Ok None
  | Some amount => Ok (Some (mkrec description amount (strftime_Ymd c_dt)))
  end.

Definition _extract_revolut_data (start_datetime : datetime) (content : list row)
    (is_reimbursement : bool) :=
  extract_loop (revolut_body start_datetime is_reimbursement) 0 content.

Definition starling_body (start_datetime : datetime) (is_reimbursement : bool)
    (i : nat) (c : row) : res (option record) :=
  let transaction_date_header := "Date" in
  let counter_party_header := "Counter Party" in
  let reference_header := "Reference" in
  let amount_header := "Amount (GBP)" in
  d <- getitem c transaction_date_header ;;
  c_dt <- py_strptime d "%d/%m/%Y" ;;
  if dt_le c_dt start_datetime then Ok None else
  counter_party <- (v <- getitem c counter_party_header ;; Ok (strip v)) ;;
  reference <- (v <- getitem c reference_header ;; Ok (strip v)) ;;
  let description :=
    if String.eqb (lower counter_party) (lower reference) then counter_party
    else reference ++ " (to: " ++ counter_party ++ ")" in
  amount <-
    (if is_reimbursement then
       a <- getitem c amount_header ;; reimbursement_amount a
     else a <- getitem c amount_header ;; Ok (Some a)) ;;
  match amount with
  | None => Ok None
  | Some amount => Ok (Some (mkrec description amount (strftime_Ymd c_dt)))
  end.

Definition _extract_starling_data (start_datetime : datetime) (content : list row)
    (is_reimbursement : bool) :=
  extract_loop (starling_body start_datetime is_reimbursement) 0 content.

Definition wise_body (start_datetime : datetime) (i : nat) (c : row)
    : res (option record) :=
  let amount_header := "Source amount (after fees)" in
  let fees_header := "Source fee amount" in
  let transaction_date_header := "Created on" in
  let direction_header := "Direction" in
  let source_header := "Source name" in
  let destination_header := "Target name" in
  d <- getitem c transaction_date_header ;;
  c_dt <- py_strptime d "%Y-%m-%d %H:%M:%S" ;;
  if dt_le c_dt start_datetime then Ok None else
  transfer_direction <- getitem c direction_header ;;
  base <- (v <- getitem c amount_header ;; Decimal v) ;;
  fee <- (v <- getitem c fees_header ;; Decimal v) ;;
  fee' <- quantize_half_up fee cents ;;
  total <- dec_add base fee' ;;
  let amount := dec_str total in
  if String.eqb transfer_direction "IN" then
    src <- getitem c source_header ;;
    Ok (Some (mkrec ("Received from " ++ src) amount (strftime_Ymd c_dt)))
  else if String.eqb transfer_direction "OUT" then
    let amount := "-" ++ amount in
    dst <- getitem c destination_header ;;
    Ok (Some (mkrec ("Sent to " ++ dst) amount (strftime_Ymd c_dt)))
  else
    v <- getitem c "direction" ;;
    Err (ValueError ("Unexpected transfer direction " ++ v)).

Definition _extract_wise_data (start_datetime : datetime) (content : list row) :=
  extract_loop (wise_body start_datetime) 0 content.

Definition payoneer_body (start_datetime : datetime) (i : nat) (c : row)
    : res (option record) :=
  let transaction_date_header := "Date" in
  let description_header := "Description" in
  let amount_header := "Amount" in
  d <- getitem c transaction_date_header ;;
  c_dt <- py_strptime d "%d %b, %Y" ;;
  if dt_le c_dt start_datetime then Ok None else
  amount <- (v <- getitem c amount_header ;; Ok (replace1 ","%char "" v)) ;;
  description <- (v <- getitem c description_header ;; Ok (replace1 ","%char "" v)) ;;
  Ok (Some (mkrec description amount (strftime_Ymd c_dt))).

Definition _extract_payoneer_data (start_datetime : datetime) (content : list row) :=
  extract_loop (payoneer_body start_datetime) 0 content.

Definition currenxie_body (start_datetime : datetime) (i : nat) (c : row)
    : res (option record) :=
  let description_header := "Description" in
  let reference_header := "Reference" in
  let transaction_amount_header := "*Amount" in
  let transaction_date_header := "*Date" in
  d <- getitem c transaction_date_header ;;
  c_dt <- py_strptime d "%m/%d/%Y" ;;
  if dt_le c_dt start_datetime then Ok None else
  description <- getitem c description_header ;;
  reference <- getitem c reference_header ;;
  let description :=
    if nonempty reference then strip (description ++ " - " ++ reference)
    else description in
  amount <- getitem c transaction_amount_header ;;
  Ok (Some (mkrec description amount (strftime_Ymd c_dt))).

Definition _extract_currenxie_data (start_datetime : datetime) (content : list row) :=
  extract_loop (currenxie_body start_datetime) 0 content.

(** [read_input] after the file has been read, its preamble lines skipped
    and the lines handed to [csv.DictReader]: the dispatch on the source. *)
Definition extract (source : InputSource) (start_datetime : datetime)
    (is_reimbursement : bool) (content : list row) : res (list record) :=
  match source with
  | NEAT => _extract_neat_data start_datetime content
  | AIRWALLEX => _extract_airwallex_data start_datetime content
  | ERSTEBANK => _extract_erste_data start_datetime content
  | REVOLUT => _extract_revolut_data start_datetime content is_reimbursement
  | WISE => _extract_wise_data start_datetime content
  | STARLING => _extract_starling_data start_datetime content is_reimbursement
  | PAYONEER => _extract_payoneer_data start_datetime content
  | CURRENXIE => _extract_currenxie_data start_datetime content
  end.

End Adapters.

(** ** [write_output]: [csv.DictWriter] with the default dialect
    (delimiter [,], the double-quote character, QUOTE_MINIMAL, line terminator
    CR LF), file opened in text mode on a POSIX system. *)

Definition quotechar : ascii := "034"%char.

Fixpoint needs_quoting (s : string) : bool :=
  match s with
  | EmptyString => false
  | String a s' =>
      char_eqb a ","%char || char_eqb a quotechar ||
      char_eqb a "013"%char || char_eqb a "010"%char || needs_quoting s'
  end.

(** QUOTE_MINIMAL with [doublequote=True]. *)
Definition csv_field (s : string) : string :=
  if needs_quoting s then
    String quotechar (replace1 quotechar (String quotechar (String quotechar EmptyString)) s
                      ++ String quotechar EmptyString)
  else s.

Definition crlf : string := String "013"%char (String "010"%char EmptyString).

Fixpoint join_fields (fs : list string) : string :=
  match fs with
  | [] => ""
  | [f] => csv_field f
  | f :: fs' => csv_field f ++ "," ++ join_fields fs'
  end.

(** [writer.writerow(row)] *)
Definition csv_line (fs : list string) : string := join_fields fs ++ crlf.

Definition CSV_DATE_HEADER := "date".
Definition CSV_AMOUNT_HEADER := "amount".
Definition CSV_DESCRIPTION_HEADER := "description".

Definition fieldnames : list string :=
  [CSV_DATE_HEADER; CSV_AMOUNT_HEADER; CSV_DESCRIPTION_HEADER].

(** [DictWriter._dict_to_list]: the values in the order of [fieldnames]. *)
Definition dict_to_list (r : record) : list string :=
  [r_date r; r_amount r; r_description r].

(** The text written to [out_path]. *)
Definition write_output (destination : OutputSource) (content : list record) : string :=
  let write_header := match destination with WAVE => true | FREEAGENT => false end in
  (if write_header then csv_line fieldnames else "") ++
  String.concat "" (map (fun r => csv_line (dict_to_list r)) content).

(** ** [main], after click has parsed the options

    The observable steps of [main] are recorded in a trace: the existence
    test on the output path, the overwrite prompt, the reading of the input
    file (inside [read_input]) and the writing of the output.  [main]
    receives the result [read_input] produces; whether the output exists
    and the answer to the prompt are inputs. *)

Inductive event : Type :=
| CheckOutExists
| ConfirmOverwrite
| ReadInput (source : InputSource)
| WriteOutput (target : OutputSource).

Inductive outcome : Type :=
| Done
| Aborted
| BadParameter (msg : string)
| Raised (e : exn).

Definition in_revolut_starling (s : InputSource) : bool :=
  match s with REVOLUT | STARLING => true | _ => false end.

Definition is_wave (t : OutputSource) : bool :=
  match t with WAVE => true | FREEAGENT => false end.

Definition main (file_type : InputSource) (target_platform : OutputSource)
    (is_reimbursement : bool) (out_exists confirm_yes : bool)
    (read_result : res (list record)) : list event * outcome :=
  let tr0 := [CheckOutExists] in
  let '(tr1, aborted) :=
    if out_exists then ((tr0 ++ [ConfirmOverwrite])%list, negb confirm_yes)
    else (tr0, false) in
  if aborted then (tr1, Aborted)
  else if in_revolut_starling file_type && negb is_reimbursement then
    (tr1, BadParameter "Expected reimbursement flag")
  else if is_reimbursement &&
          (negb (in_revolut_starling file_type) || negb (is_wave target_platform)) then
    (tr1, BadParameter "Did not expect reimbursement flag")
  else
    let tr2 := (tr1 ++ [ReadInput file_type])%list in
    match read_result with
    | Err e => (tr2, Raised e)
    | Ok result => ((tr2 ++ [WriteOutput target_platform])%list, Done)
    end.

(** ** A concrete date parser, used to run the adapters on examples

    A fixed-width reading of the directives the adapters use: [%Y] four
    digits, [%m %d %H %M %S] two digits, [%b] an English month
    abbreviation; other characters of the format match themselves.
    Fields not in the format default as in [strptime] (1900-01-01 00:00:00). *)

Definition month_abbrevs : list string :=
  ["Jan"; "Feb"; "Mar"; "Apr"; "May"; "Jun"; "Jul"; "Aug"; "Sep"; "Oct"; "Nov"; "Dec"].

Fixpoint index_of (s : string) (l : list string) (n : Z) : option Z :=
  match l with
  | [] => None
  | x :: l' => if String.eqb x s then Some n else index_of s l' (n + 1)
  end.

Definition take_n_digits (n : nat) (s : string) : option (Z * string) :=
  let d := substring 0 n s in
  if (String.length d =? n)%nat &&
     forallb is_digit (list_ascii_of_string d) then
    Some (Z.of_N (digits_value d 0), substring n (String.length s - n) s)
  else None.

Fixpoint strptime_fixed_aux (fuel : nat) (fmt s : string) (acc : datetime)
    : option datetime :=
  match fuel with
  | O => None
  | S fuel' =>
      match fmt with
      | EmptyString => match s with EmptyString => Some acc | _ => None end
      | String "%"%char (String k fmt') =>
          let width := if char_eqb k "Y"%char then 4%nat else 2%nat in
          if char_eqb k "b"%char then
            match index_of (substring 0 3 s) month_abbrevs 1 with
            | Some m =>
                strptime_fixed_aux fuel' fmt' (substring 3 (String.length s - 3) s)
                  (mkdt (year acc) m (day acc) (hour acc) (minute acc) (second acc))
            | None => None
            end
          else
            match take_n_digits width s with
            | None => None
            | Some (v, s') =>
                let acc' :=
                  if char_eqb k "Y"%char then mkdt v (month acc) (day acc) (hour acc) (minute acc) (second acc)
                  else if char_eqb k "m"%char then mkdt (year acc) v (day acc) (hour acc) (minute acc) (second acc)
                  else if char_eqb k "d"%char then mkdt (year acc) (month acc) v (hour acc) (minute acc) (second acc)
                  else if char_eqb k "H"%char then mkdt (year acc) (month acc) (day acc) v (minute acc) (second acc)
                  else if char_eqb k "M"%char then mkdt (year acc) (month acc) (day acc) (hour acc) v (second acc)
                  else mkdt (year acc) (month acc) (day acc) (hour acc) (minute acc) v in
                strptime_fixed_aux fuel' fmt' s' acc'
            end
      | String a fmt' =>
          match s with
          | String b s' => if char_eqb a b then strptime_fixed_aux fuel' fmt' s' acc else None
          | EmptyString => None
          end
      end
  end.

Definition strptime_fixed (s fmt : string) : option datetime :=
  strptime_fixed_aux (S (String.length fmt)) fmt s (mkdt 1900 1 1 0 0 0).

(** The default [--from] date: [datetime(2000, 1, 1)]. *)
Definition default_from : datetime := mkdt 2000 1 1 0 0 0.

Definition flat {A} (os : list (option A)) : list A := flat_map opt_list os.

(** ** The date column of each source *)

Definition date_column (source : InputSource) : string * string :=
  match source with
  | NEAT => ("Transaction Date", "%Y-%m-%d %H:%M:%S")
  | AIRWALLEX => ("Created At", "%Y-%m-%d %H:%M:%S")
  | ERSTEBANK => ("Datum izvršenja", "%d.%m.%Y")
  | REVOLUT => ("Completed Date", "%Y-%m-%d %H:%M:%S")
  | WISE => ("Created on", "%Y-%m-%d %H:%M:%S")
  | STARLING => ("Date", "%d/%m/%Y")
  | PAYONEER => ("Date", "%d %b, %Y")
  | CURRENXIE => ("*Date", "%m/%d/%Y")
  end.

(** The parsed date of a row: its date field read with the source's format. *)
Definition row_date (strptime : string -> string -> option datetime)
    (source : InputSource) (c : row) : option datetime :=
  match dict_get c (fst (date_column source)) with
  | Some s => strptime s (snd (date_column source))
  | None => None
  end.

(** The cutoff property of one row and what the adapter made of it. *)
Definition cutoff_respected (strptime : string -> string -> option datetime)
    (source : InputSource) (cutoff : datetime) (c : row) (o : option record) : Prop :=
  (forall dt, row_date strptime source c = Some dt -> dt_le dt cutoff = true -> o = None) /\
  (forall r, o = Some r ->
     exists dt, row_date strptime source c = Some dt /\ dt_lt cutoff dt = true /\
                r_date r = strftime_Ymd dt).

Definition adapter_body (strptime : string -> string -> option datetime)
    (Decimal : string -> res decimal) (strip lower : string -> string)
    (source : InputSource) (start_datetime : datetime) (is_reimbursement : bool)
    : nat -> row -> res (option record) :=
  match source with
  | NEAT => neat_body strptime start_datetime
  | AIRWALLEX => airwallex_body strptime start_datetime
  | ERSTEBANK => erste_body strptime start_datetime
  | REVOLUT => revolut_body strptime Decimal start_datetime is_reimbursement
  | WISE => wise_body strptime Decimal start_datetime
  | STARLING => starling_body strptime Decimal strip lower start_datetime is_reimbursement
  | PAYONEER => payoneer_body strptime start_datetime
  | CURRENXIE => currenxie_body strptime strip start_datetime
  end.

(** ** Half-up rounding to cents *)

(** [m] is [|x| * 100] rounded half up, for [|x| = c * 10^e]: when [x] has
    more than two decimals, [m <= |x|*100 + 1/2 < m + 1]; otherwise [m] is
    [|x| * 100] exactly. *)
Definition half_up_cents_spec (c : N) (e : Z) (m : N) : Prop :=
  if (e <=? cents)%Z then
    let D := (10 ^ Z.to_N (cents - e))%N in
    (2 * m * D <= 2 * c + D < 2 * (m + 1) * D)%N
  else m = (c * 10 ^ Z.to_N (e - cents))%N.

(** ** Reimbursement mode, per row *)

Definition amount_column (source : InputSource) : string :=
  match source with
  | REVOLUT => "Amount"
  | STARLING => "Amount (GBP)"
  | NEAT => "Transaction Amount"
  | AIRWALLEX => "Net Amount"
  | ERSTEBANK => "Uplate"
  | WISE => "Source amount (after fees)"
  | PAYONEER => "Amount"
  | CURRENXIE => "*Amount"
  end.

(** A row with a positive amount gives no record; a record comes from a
    non-positive amount and carries its negation rounded half up to cents. *)
Definition reimbursed (Decimal : string -> res decimal) (source : InputSource)
    (c : row) (o : option record) : Prop :=
  (forall a d, dict_get c (amount_column source) = Some a ->
     Decimal a = Ok d -> dec_gt0 d = Ok true -> o = None) /\
  (forall r, o = Some r ->
     exists a sg co e m, dict_get c (amount_column source) = Some a /\
       Decimal a = Ok (DFinite sg co e) /\ (sg = true \/ co = 0%N) /\
       half_up_cents_spec co e m /\ r_amount r = dec_str (DFinite false m cents)).

(** ** Sample inputs *)

Definition sample_cutoff : datetime := mkdt 2023 1 1 0 0 0.

Definition sample_neat_rows : list row :=
  [ [("Transaction Date", "2023-01-01 00:00:00"); ("Description", "a"); ("Transaction Amount", "1")];
    [("Transaction Date", "2023-01-01 00:00:01"); ("Description", "b"); ("Transaction Amount", "2")] ].

Definition revolut_row (state date amount : string) : row :=
  [("State", state); ("Completed Date", date); ("Description", "Shop, Ltd"); ("Amount", amount)].

Definition sample_revolut_rows : list row :=
  [ revolut_row "COMPLETED" "2023-02-01 10:00:00" "-12.345";
    revolut_row "COMPLETED" "2023-02-02 10:00:00" "5.00";
    revolut_row "REVERTED" "" "-1.00";
    revolut_row "COMPLETED" "2023-02-03 10:00:00" "-0.125" ].

(** ** ErsteBank: the debit and credit columns *)

Definition erste_amount_ok (c : row) (o : option record) : Prop :=
  forall r, o = Some r ->
    exists dep pay, dict_get c "Uplate" = Some dep /\ dict_get c "Isplate" = Some pay /\
      (nonempty (continental_to_point dep) = true ->
         nonempty (continental_to_point pay) = false /\ r_amount r = continental_to_point dep) /\
      (nonempty (continental_to_point dep) = false ->
         r_amount r = "-" ++ continental_to_point pay).

Definition both_directions_msg (description : string) (i : nat) : string :=
  "Both inbound and outbound transactions for " ++ description
  ++ " (line " ++ nat_to_string i ++ ")".

Definition erste_row (date dep pay : string) : row :=
  [("Datum izvršenja", date); ("Opis plaæanja, kurs", "Rent"); ("Uplate", dep);
   ("Isplate", pay); ("Primalac", "Landlord")].

(** ** Wise: base amount, fee and direction *)

Definition wise_amount_ok (Decimal : string -> res decimal) (c : row) (o : option record)
    : Prop :=
  forall r, o = Some r ->
    exists dir a f base fee fee' total,
      dict_get c "Direction" = Some dir /\
      dict_get c "Source amount (after fees)" = Some a /\
      dict_get c "Source fee amount" = Some f /\
      Decimal a = Ok base /\ Decimal f = Ok fee /\
      quantize_half_up fee cents = Ok fee' /\ dec_add base fee' = Ok total /\
      ((dir = "IN" /\ r_amount r = dec_str total /\
        exists x, dict_get c "Source name" = Some x /\ r_description r = "Received from " ++ x) \/
       (dir = "OUT" /\ r_amount r = "-" ++ dec_str total /\
        exists y, dict_get c "Target name" = Some y /\ r_description r = "Sent to " ++ y)).

Definition wise_row (dir base fee : string) : row :=
  [("Created on", "2023-02-01 09:00:00"); ("Direction", dir);
   ("Source amount (after fees)", base); ("Source fee amount", fee);
   ("Source name", "Alice"); ("Target name", "Bob")].

(** ** Starling: the description *)

Definition starling_desc_ok (strip lower : string -> string) (c : row) (o : option record)
    : Prop :=
  forall r, o = Some r ->
    exists cp ref, dict_get c "Counter Party" = Some cp /\ dict_get c "Reference" = Some ref /\
      r_description r =
        (if String.eqb (lower (strip cp)) (lower (strip ref)) then strip cp
         else strip ref ++ " (to: " ++ strip cp ++ ")").

Definition starling_row (cp ref amount : string) : row :=
  [("Date", "05/02/2023"); ("Counter Party", cp); ("Reference", ref); ("Amount (GBP)", amount)].

(** ** The orchestrator *)

Definition incompatible_options (file_type : InputSource) (target_platform : OutputSource)
    (is_reimbursement : bool) : Prop :=
  (in_revolut_starling file_type = true /\ is_reimbursement = false) \/
  (is_reimbursement = true /\
   (in_revolut_starling file_type = false \/ target_platform = FREEAGENT)).

(** ** The output path of [main]: [pathlib] on POSIX paths

    A resolved absolute path is the list of its components after the root
    (click's [resolve_path=True]); [name], [stem], [suffix] and
    [with_name] follow [PurePath] of Python 3.12 and 3.13. *)

Record path : Type := mkpath { p_parts : list string }.

(** [c in s] for a character [c]. *)
Fixpoint has_char (a : ascii) (s : string) : bool :=
  match s with
  | EmptyString => false
  | String b s' => char_eqb b a || has_char a s'
  end.

Definition as_posix (p : path) : string := "/" ++ String.concat "/" (p_parts p).

(** [p.name] *)
Definition path_name (p : path) : string := last (p_parts p) "".

(** [s.rfind(c)], [None] for [-1]. *)
Fixpoint rfind_aux (a : ascii) (s : string) (i : nat) (acc : option nat) : option nat :=
  match s with
  | EmptyString => acc
  | String b s' => rfind_aux a s' (S i) (if char_eqb b a then Some i else acc)
  end.

Definition rfind (a : ascii) (s : string) : option nat := rfind_aux a s 0 None.

(** [p.suffix] *)
Definition path_suffix (p : path) : string :=
  let name := path_name p in
  match rfind "."%char name with
  | Some i =>
      if (0 <? i)%nat && (i <? String.length name - 1)%nat
      then substring i (String.length name - i) name else ""
  | None => ""
  end.

(** [p.stem] *)
Definition path_stem (p : path) : string :=
  let name := path_name p in
  match rfind "."%char name with
  | Some i =>
      if (0 <? i)%nat && (i <? String.length name - 1)%nat
      then substring 0 i name else name
  | None => name
  end.

(** [p.with_name(name)] *)
Definition with_name (p : path) (name : string) : res path :=
  if negb (nonempty (path_name p)) then
    Err (ValueError ("PosixPath('" ++ as_posix p ++ "') has an empty name"))
  else if negb (nonempty name) || has_char "/"%char name || String.eqb name "." then
    Err (ValueError ("Invalid name '" ++ name ++ "'"))
  else Ok (mkpath (removelast (p_parts p) ++ [name])).

(** [InputSource.name] and [OutputSource.name] *)
Definition InputSource_name (s : InputSource) : string :=
  match s with
  | AIRWALLEX => "AIRWALLEX" | CURRENXIE => "CURRENXIE" | ERSTEBANK => "ERSTEBANK"
  | NEAT => "NEAT" | PAYONEER => "PAYONEER" | REVOLUT => "REVOLUT"
  | STARLING => "STARLING" | WISE => "WISE"
  end.

Definition OutputSource_name (t : OutputSource) : string :=
  match t with FREEAGENT => "FREEAGENT" | WAVE => "WAVE" end.

(** [out_path] in [main]. *)
Definition converted_out_path (file_path : path) (file_type_enum : InputSource)
    (target_platform_enum : OutputSource) : res path :=
  with_name file_path
    (path_stem file_path ++ "_CONVERTED_" ++ InputSource_name file_type_enum ++ "_TO_"
     ++ OutputSource_name target_platform_enum ++ path_suffix file_path).

(** ** What each adapter puts in a record *)

Definition neat_record_ok (c : row) (o : option record) : Prop :=
  forall r, o = Some r ->
    dict_get c "Description" = Some (r_description r) /\
    dict_get c "Transaction Amount" = Some (r_amount r).

Definition airwallex_record_ok (c : row) (o : option record) : Prop :=
  forall r, o = Some r ->
    dict_get c "Net Amount" = Some (r_amount r) /\
    ((dict_get c "Type" = Some "Deposit" /\
      exists x, dict_get c "Remitter Name" = Some x /\ r_description r = "Deposit from " ++ x) \/
     (dict_get c "Type" = Some "Payout" /\
      exists y, dict_get c "Beneficiary Bank Account Name" = Some y /\
                r_description r = "Payout to " ++ y) \/
     (dict_get c "Type" = Some "Fee" /\ r_description r = "Fee")).

Definition erste_description_ok (c : row) (o : option record) : Prop :=
  forall r, o = Some r ->
    exists desc dep ben,
      dict_get c "Opis plaæanja, kurs" = Some desc /\ dict_get c "Uplate" = Some dep /\
      dict_get c "Primalac" = Some ben /\
      r_description r =
        (if nonempty ben then
           desc ++ (if nonempty (continental_to_point dep) then " from " else " to ") ++ ben
         else desc).

Definition revolut_record_ok (is_reimbursement : bool) (c : row) (o : option record) : Prop :=
  forall r, o = Some r ->
    dict_get c "State" = Some "COMPLETED" /\
    has_char ","%char (r_description r) = false /\
    (exists d, dict_get c "Description" = Some d /\ r_description r = replace1 ","%char "" d) /\
    (is_reimbursement = false -> dict_get c "Amount" = Some (r_amount r)).

Definition payoneer_record_ok (c : row) (o : option record) : Prop :=
  forall r, o = Some r ->
    has_char ","%char (r_description r) = false /\ has_char ","%char (r_amount r) = false /\
    exists d a, dict_get c "Description" = Some d /\ dict_get c "Amount" = Some a /\
      r_description r = replace1 ","%char "" d /\ r_amount r = replace1 ","%char "" a.

Definition currenxie_record_ok (strip : string -> string) (c : row) (o : option record)
    : Prop :=
  forall r, o = Some r ->
    dict_get c "*Amount" = Some (r_amount r) /\
    exists d ref, dict_get c "Description" = Some d /\ dict_get c "Reference" = Some ref /\
      r_description r = (if nonempty ref then strip (d ++ " - " ++ ref) else d).

(** A row whose parsed date is after the cutoff. *)
Definition after_cutoff (strptime : string -> string -> option datetime)
    (source : InputSource) (cutoff : datetime) (c : row) : bool :=
  match row_date strptime source c with
  | Some dt => dt_lt cutoff dt
  | None => false
  end.

(** The sources whose adapter turns every row after the cutoff into a
    record (no state filter, no reimbursement filter). *)
Definition unfiltered (source : InputSource) (is_reimbursement : bool) : bool :=
  match source with
  | REVOLUT => false
  | STARLING => negb is_reimbursement
  | _ => true
  end.

Definition sample_path : path := mkpath ["home"; "ana"; "bank.2023.csv"].

Definition airwallex_row (ty : string) : row :=
  [("Created At", "2023-03-01 08:00:00"); ("Type", ty); ("Remitter Name", "ACME");
   ("Beneficiary Bank Account Name", "Bob"); ("Net Amount", "42.00")].

Definition payoneer_row (date amount desc : string) : row :=
  [("Date", date); ("Description", desc); ("Amount", amount)].

Definition currenxie_row (desc ref : string) : row :=
  [("*Date", "03/15/2023"); ("Description", desc); ("Reference", ref); ("*Amount", "-20.00")].



(** * Properties *)

(** ** The embedding on examples *)

Example dec_examples :
  dec_str (DFinite true 12345 (-3)) = "-12.345" /\
  (x <- decimal_of_ascii " -12.345 " ;; Ok (dec_str x)) = Ok "-12.345" /\
  (x <- decimal_of_ascii "-1_000" ;; Ok (dec_str x)) = Ok "-1000" /\
  (x <- decimal_of_ascii "-0.125" ;; y <- quantize_half_up x (-2) ;; z <- dec_neg y ;;
   Ok (dec_str z)) = Ok "0.13" /\
  (x <- decimal_of_ascii "0" ;; y <- quantize_half_up x (-2) ;; z <- dec_neg y ;;
   Ok (dec_str z)) = Ok "0.00" /\
  (x <- decimal_of_ascii "1E+3" ;; Ok (dec_str x)) = Ok "1E+3" /\
  (x <- decimal_of_ascii ".5e-8" ;; Ok (dec_str x)) = Ok "5E-9" /\
  (x <- decimal_of_ascii "0.000001" ;; Ok (dec_str x)) = Ok "0.000001" /\
  (x <- decimal_of_ascii "-nan0012" ;; z <- dec_neg x ;; Ok (dec_str z)) = Ok "-NaN12" /\
  (x <- decimal_of_ascii "10" ;; y <- decimal_of_ascii "0.005" ;;
   y' <- quantize_half_up y (-2) ;; z <- dec_add x y' ;; Ok (dec_str z)) = Ok "10.01" /\
  (x <- decimal_of_ascii "1E-1000030" ;; y <- decimal_of_ascii "0.00" ;;
   z <- dec_add x y ;; Ok (dec_str z)) = Ok "0E-1000026" /\
  (x <- decimal_of_ascii "1E+1000000" ;; y <- decimal_of_ascii "0.00" ;;
   z <- dec_add x y ;; Ok (dec_str z)) = Err Overflow.
Proof. vm_compute. repeat split. Qed.

Example strptime_fixed_ex :
  strptime_fixed "2023-04-05 13:14:15" "%Y-%m-%d %H:%M:%S" = Some (mkdt 2023 4 5 13 14 15) /\
  strptime_fixed "07 Mar, 2022" "%d %b, %Y" = Some (mkdt 2022 3 7 0 0 0) /\
  strptime_fixed "31/12/2021" "%d/%m/%Y" = Some (mkdt 2021 12 31 0 0 0).
Proof. vm_compute. repeat split. Qed.

Example neat_ex :
  _extract_neat_data strptime_fixed (mkdt 2023 1 1 0 0 0)
    [ [("Transaction Date", "2023-01-01 00:00:00"); ("Description", "a"); ("Transaction Amount", "1")];
      [("Transaction Date", "2023-01-01 00:00:01"); ("Description", "b"); ("Transaction Amount", "2")] ]
  = Ok [mkrec "b" "2" "2023-01-01"].
Proof. vm_compute. reflexivity. Qed.

Example write_ex :
  write_output WAVE [mkrec "x,y" "1" "2023-01-01"] =
  "date,amount,description" ++ crlf ++ "2023-01-01,1," ++ String quotechar "x,y" ++ String quotechar crlf.
Proof. vm_compute. reflexivity. Qed.

(** ** The result monad and the row loop *)

Lemma bind_ok_inv {A B} (m : res A) (f : A -> res B) (x : B) :
  bind m f = Ok x -> exists a, m = Ok a /\ f a = Ok x.
Proof. destruct m as [a|e]; simpl; [eauto | discriminate]. Qed.

(** Invert a successful run of an adapter body down to its result. *)
Ltac invert_ok :=
  repeat match goal with
  | H : bind _ _ = Ok _ |- _ =>
      let a := fresh "v" in let Ha := fresh "Hv" in
      apply bind_ok_inv in H; destruct H as [a [Ha H]]
  | H : Err _ = Ok _ |- _ => discriminate H
  | H : Ok _ = Ok _ |- _ => injection H as H; subst
  | H : (if ?b then _ else _) = Ok _ |- _ =>
      let Hb := fresh "Hb" in destruct b eqn:Hb
  | H : match ?x with _ => _ end = Ok _ |- _ =>
      let Hx := fresh "Hx" in destruct x eqn:Hx
  end.

(** What [extract_loop] returns is the concatenation of what its body
    returns on each row, in row order. *)
Lemma extract_loop_rows (P : row -> option record -> Prop)
    (body : nat -> row -> res (option record)) :
  (forall j c o, body j c = Ok o -> P c o) ->
  forall rows i out, extract_loop body i rows = Ok out ->
  exists os, Forall2 P rows os /\ out = flat os.
Proof.
  intros Hbody rows. induction rows as [|c rows IH]; intros i out H; simpl in H.
  - injection H as <-. exists []. split; constructor.
  - apply bind_ok_inv in H as [o [Ho H]].
    apply bind_ok_inv in H as [out' [Hout' H]].
    injection H as <-.
    destruct (IH _ _ Hout') as [os [Hos ->]].
    exists (o :: os). split.
    + constructor; [eapply Hbody; eassumption | exact Hos].
    + destruct o; reflexivity.
Qed.

(** The loop only depends on the body's results: a body that ignores the
    row index gives the same result from any starting index. *)
Lemma extract_loop_index (body : nat -> row -> res (option record)) :
  (forall i j c, body i c = body j c) ->
  forall rows i j, extract_loop body i rows = extract_loop body j rows.
Proof.
  intros Hb rows. induction rows as [|c rows IH]; intros i j; simpl; [reflexivity|].
  rewrite (Hb i j c). destruct (body j c); simpl; [|reflexivity].
  rewrite (IH (S i) (S j)). reflexivity.
Qed.

Lemma extract_as_loop strptime Decimal strip lower source start_datetime is_reimbursement rows :
  extract strptime Decimal strip lower source start_datetime is_reimbursement rows =
  extract_loop (adapter_body strptime Decimal strip lower source start_datetime is_reimbursement) 0 rows.
Proof. destruct source; reflexivity. Qed.

Ltac unfold_body :=
  unfold adapter_body, neat_body, airwallex_body, erste_body, revolut_body,
    wise_body, starling_body, payoneer_body, currenxie_body,
    getitem, py_strptime in *;
  cbv zeta in *.

Ltac rewrite_dict_get :=
  repeat match goal with
  | H1 : dict_get ?c ?k = Some _, H2 : context [dict_get ?c ?k] |- _ =>
      rewrite H1 in H2
  | H1 : dict_get ?c ?k = Some _ |- context [dict_get ?c ?k] => rewrite H1
  end.

Lemma adapter_body_cutoff strptime Decimal strip lower source cutoff is_reimbursement i c o :
  adapter_body strptime Decimal strip lower source cutoff is_reimbursement i c = Ok o ->
  cutoff_respected strptime source cutoff c o.
Proof.
  intros H. unfold cutoff_respected, row_date.
  destruct source; simpl fst; simpl snd; unfold_body;
    split;
    match goal with
    | |- forall dt : datetime, _ => intros dt Hd Hle
    | |- forall r : record, _ => intros r Hr
    end; invert_ok;
    try reflexivity; try discriminate;
    rewrite_dict_get;
    try (exfalso; congruence);
    try (injection Hr as <-);
    (eexists; split; [eassumption | split; [unfold dt_lt; match goal with H : dt_le _ _ = false |- _ => rewrite H end; reflexivity | reflexivity]]).
Qed.

(** A coefficient of [ndigits c] digits is below [10^(ndigits c)]. *)
Lemma digits_aux_bound fuel : forall n acc,
  (n < 2 ^ N.of_nat fuel)%N ->
  exists k, String.length (digits_aux fuel n acc) = (k + String.length acc)%nat /\
            (n < 10 ^ N.of_nat k)%N.
Proof.
  induction fuel as [|f IH]; intros n acc Hn.
  - exists 0%nat. simpl in *. split; [reflexivity | exact Hn].
  - simpl. destruct (N.ltb_spec n 10) as [Hlt|Hge].
    + exists 1%nat. split; [reflexivity | simpl; lia].
    + assert (Hq : (n / 10 < 2 ^ N.of_nat f)%N).
      { apply N.Div0.div_lt_upper_bound.
        rewrite Nnat.Nat2N.inj_succ, N.pow_succ_r' in Hn. lia. }
      destruct (IH (n / 10)%N (String (digit_char (n mod 10)) acc) Hq) as [k [Hk Hb]].
      exists (S k). split; [simpl in Hk; lia|].
      rewrite Nnat.Nat2N.inj_succ, N.pow_succ_r'.
      pose proof (N.div_mod n 10 ltac:(discriminate)).
      pose proof (N.mod_lt n 10 ltac:(discriminate)). lia.
Qed.

Lemma ndigits_bound c : (c < 10 ^ Z.to_N (ndigits c))%N.
Proof.
  unfold ndigits, N_to_string.
  destruct (digits_aux_bound (S (N.to_nat (N.log2 c))) c EmptyString) as [k [Hk Hb]].
  - rewrite Nnat.Nat2N.inj_succ, Nnat.N2Nat.id.
    destruct (N.eq_dec c 0) as [->|Hc]; [reflexivity|].
    apply N.log2_spec. lia.
  - rewrite Hk. simpl. rewrite Nat.add_0_r. rewrite <- Znat.nat_N_Z, Znat.N2Z.id. exact Hb.
Qed.

Lemma ndigits_nonneg c : (0 <= ndigits c)%Z.
Proof. unfold ndigits. lia. Qed.

Lemma pow10_pos (k : N) : (0 < 10 ^ k)%N.
Proof. apply N.neq_0_lt_0. apply N.pow_nonzero. discriminate. Qed.

Lemma pow10_even (k : N) : (0 < k)%N -> (2 * (10 ^ k / 2) = 10 ^ k)%N.
Proof.
  intros Hk. replace k with (N.succ (N.pred k)) by lia.
  rewrite N.pow_succ_r'.
  replace (10 * 10 ^ N.pred k)%N with ((5 * 10 ^ N.pred k) * 2)%N by lia.
  rewrite N.div_mul by discriminate. lia.
Qed.

Lemma rescale_half_up_spec (c : N) (e : Z) :
  half_up_cents_spec c e (rescale_half_up c e cents).
Proof.
  unfold half_up_cents_spec, rescale_half_up.
  destruct (Z.leb_spec e cents) as [He|He];
  destruct (Z.leb_spec cents e) as [He'|He']; try lia.
  - assert (e = cents) by lia. subst e. rewrite Z.sub_diag.
    change (Z.to_N 0) with 0%N. rewrite N.pow_0_r. lia.
  - set (D := (10 ^ Z.to_N (cents - e))%N).
    assert (HD : (2 * (D / 2) = D)%N) by (apply pow10_even; lia).
    assert (HDpos : (0 < D)%N) by apply pow10_pos.
    destruct (Z.ltb_spec (ndigits c + e - cents) 0) as [Hd|Hd].
    + (* no digit left: [c * 10^e < 10^(cents-1)], which rounds to 0 *)
      replace (cents - (cents - 1))%Z with 1%Z by lia.
      change ((1 + 10 ^ Z.to_N 1 / 2) / 10 ^ Z.to_N 1)%N with 0%N.
      pose proof (ndigits_bound c) as Hc.
      assert (Hle : (10 ^ Z.to_N (ndigits c) * 10 <= D)%N).
      { rewrite N.mul_comm, <- N.pow_succ_r'. unfold D.
        apply N.pow_le_mono_r; [discriminate|]. pose proof (ndigits_nonneg c). lia. }
      lia.
    + cbv beta iota zeta. fold D. pose proof (N.div_mod (c + D / 2) D ltac:(lia)) as Hdm.
      pose proof (N.mod_lt (c + D / 2) D ltac:(lia)) as Hlt.
      set (m := ((c + D / 2) / D)%N) in *.
      set (r := ((c + D / 2) mod D)%N) in *.
      nia.
Qed.

Lemma dec_fix_short s c e :
  (ndigits c <= prec)%Z -> (Etiny <= e)%Z -> (ndigits c + e - 1 <= Emax)%Z ->
  dec_fix s c e = Ok (DFinite s c e).
Proof.
  intros H1 H2 H3. unfold dec_fix.
  destruct (N.eqb_spec c 0) as [->|Hc].
  - do 2 f_equal. change (ndigits 0) with 1%Z in H3. lia.
  - unfold Etop. destruct (Z.ltb_spec (Emax - prec + 1) (ndigits c + e - prec)); [lia|].
    destruct (Z.ltb_spec e (Z.max (ndigits c + e - prec) Etiny)); [lia | reflexivity].
Qed.

Lemma quantize_cents_spec s c e d :
  quantize_half_up (DFinite s c e) cents = Ok d ->
  exists m, d = DFinite s m cents /\ half_up_cents_spec c e m /\
            (c = 0%N -> m = 0%N) /\ (ndigits m <= prec)%Z.
Proof.
  unfold quantize_half_up. intros H.
  change (negb ((Etiny <=? cents)%Z && (cents <=? Emax)%Z)) with false in H.
  cbv iota in H.
  destruct (N.eqb_spec c 0) as [Hc|Hc].
  - subst c. vm_compute in H. injection H as <-. exists 0%N.
    split; [reflexivity|]. split; [|split; [reflexivity | vm_compute; discriminate]].
    unfold half_up_cents_spec.
    destruct (e <=? cents)%Z; try (pose proof (pow10_pos (Z.to_N (cents - e))); lia); reflexivity.
  - destruct (Emax <? e + ndigits c - 1)%Z; [discriminate|].
    destruct (prec <? e + ndigits c - 1 - cents + 1)%Z; [discriminate|].
    destruct (Z.ltb_spec Emax (cents + ndigits (rescale_half_up c e cents) - 1)) as [Hx|Hx];
      [discriminate|].
    destruct (Z.ltb_spec prec (ndigits (rescale_half_up c e cents))) as [Hn|Hn];
      [discriminate|].
    rewrite dec_fix_short in H by (try exact Hn; try lia; vm_compute; discriminate).
    injection H as <-. eexists. split; [reflexivity|].
    split; [apply rescale_half_up_spec|]. split; [intros; contradiction | exact Hn].
Qed.

(** The reimbursement amount of one source amount. *)
Lemma reimbursement_amount_spec Decimal a o :
  reimbursement_amount Decimal a = Ok o ->
  (forall d, Decimal a = Ok d -> dec_gt0 d = Ok true -> o = None) /\
  (forall s', o = Some s' ->
     exists sg c e m, Decimal a = Ok (DFinite sg c e) /\
       (sg = true \/ c = 0%N) /\ half_up_cents_spec c e m /\
       s' = dec_str (DFinite false m cents)).
Proof.
  unfold reimbursement_amount. intros H.
  apply bind_ok_inv in H as [d [Hd H]].
  apply bind_ok_inv in H as [pos [Hpos H]].
  split.
  - intros d' Hd' Hpos'. rewrite Hd in Hd'. injection Hd' as <-.
    rewrite Hpos in Hpos'. injection Hpos' as ->. injection H as <-. reflexivity.
  - intros s' ->. destruct pos; [discriminate|].
    apply bind_ok_inv in H as [d' [Hd' H]]. rewrite Hd in Hd'. injection Hd' as <-.
    apply bind_ok_inv in H as [q [Hq H]].
    apply bind_ok_inv in H as [n [Hn H]]. injection H as Hs'.
    destruct d as [sg c e | sg | sg p | sg p]; simpl in Hpos, Hq; try discriminate.
    destruct (quantize_cents_spec _ _ _ _ Hq) as [m [-> [Hm [H0 Hlen]]]].
    exists sg, c, e, m. split; [exact Hd|].
    injection Hpos as Hpos.
    assert (Hsg : sg = true \/ c = 0%N).
    { destruct sg; [left; reflexivity | right; simpl in Hpos; apply N.ltb_ge in Hpos; lia]. }
    split; [exact Hsg|]. split; [exact Hm|].
    rewrite <- Hs'. cbv beta iota delta [dec_neg] in Hn.
    destruct (N.eqb_spec m 0) as [Hm0|Hm0].
    + subst m. vm_compute in Hn. injection Hn as <-. reflexivity.
    + rewrite dec_fix_short in Hn;
        [| exact Hlen | vm_compute; discriminate | unfold prec, cents, Emax in *; lia].
      injection Hn as <-.
      destruct Hsg as [-> | ->]; [reflexivity | exfalso; apply Hm0, H0; reflexivity].
Qed.

Lemma reimbursed_body strptime Decimal strip lower source cutoff i c o :
  in_revolut_starling source = true ->
  adapter_body strptime Decimal strip lower source cutoff true i c = Ok o ->
  reimbursed Decimal source c o.
Proof.
  intros Hs H. unfold reimbursed.
  destruct source; try discriminate Hs; simpl amount_column; unfold_body;
    split;
    match goal with
    | |- forall a : string, _ => intros a d Ha Hd Hpos
    | |- forall r : record, _ => intros r Hr
    end; invert_ok; try reflexivity; try discriminate;
    match goal with
    | HR : reimbursement_amount _ _ = Ok _ |- _ =>
        destruct (reimbursement_amount_spec _ _ _ HR) as [Hpos1 Hsome]
    end;
    try (exfalso; injection Ha as <-; discriminate (Hpos1 d Hd Hpos));
    try (injection Hr as <-);
    (destruct (Hsome _ eq_refl) as (sg & co & e & m & H1 & H2 & H3 & H4);
     do 5 eexists; split; [first [eassumption | reflexivity]|]; split; [exact H1|];
     split; [exact H2|]; split; [exact H3|]; exact H4).
Qed.

Example reimbursement_amount_examples :
  reimbursement_amount decimal_of_ascii "-12.345" = Ok (Some "12.35") /\
  reimbursement_amount decimal_of_ascii "-0.125" = Ok (Some "0.13") /\
  reimbursement_amount decimal_of_ascii "-1_000.005" = Ok (Some "1000.01") /\
  reimbursement_amount decimal_of_ascii "12.00" = Ok None /\
  reimbursement_amount decimal_of_ascii "NaN" = Err InvalidOperation.
Proof. vm_compute. repeat split. Qed.

(** * The claims *)



(** C2: in reimbursement mode (Revolut and Starling), a row whose amount is
    positive gives no record, and every record's amount is the source
    amount, which is not positive, negated and rounded half up to two
    decimals ([-12.345] gives [12.35], [-0.125] gives [0.13]). *)
Theorem reimbursement_mode_amounts strptime Decimal strip lower source cutoff rows out :
  in_revolut_starling source = true ->
  extract strptime Decimal strip lower source cutoff true rows = Ok out ->
  exists os, Forall2 (reimbursed Decimal source) rows os /\ out = flat os.
Proof.
  intros Hs. rewrite extract_as_loop. apply extract_loop_rows.
  intros j c o H. eapply reimbursed_body; eassumption.
Qed.

Lemma reimbursement_mode_amounts_witness :
  in_revolut_starling REVOLUT = true /\
  extract strptime_fixed decimal_of_ascii ascii_strip ascii_lower REVOLUT sample_cutoff true sample_revolut_rows =
    Ok [mkrec "Shop Ltd" "12.35" "2023-02-01"; mkrec "Shop Ltd" "0.13" "2023-02-03"] /\
  exists os, Forall2 (reimbursed decimal_of_ascii REVOLUT) sample_revolut_rows os /\
    [mkrec "Shop Ltd" "12.35" "2023-02-01"; mkrec "Shop Ltd" "0.13" "2023-02-03"] = flat os.
Proof.
  split; [reflexivity|]. split; [vm_compute; reflexivity|].
  apply (reimbursement_mode_amounts strptime_fixed decimal_of_ascii ascii_strip ascii_lower REVOLUT sample_cutoff sample_revolut_rows);
    vm_compute; reflexivity.
Defined.

(** ** A failing row fails the whole extraction; a skipped row changes nothing *)

Lemma extract_loop_err_at (body : nat -> row -> res (option record)) rows1 c rows2 i e' :
  body (i + length rows1) c = Err e' ->
  exists e, extract_loop body i (rows1 ++ c :: rows2) = Err e /\
            (forall out1, extract_loop body i rows1 = Ok out1 -> e = e').
Proof.
  revert i. induction rows1 as [|c1 rows1 IH]; intros i Hc; simpl in *.
  - rewrite Nat.add_0_r in Hc. rewrite Hc. simpl. exists e'. split; [reflexivity|].
    intros out1 H. reflexivity.
  - rewrite Nat.add_succ_r, <- Nat.add_succ_l in Hc.
    destruct (IH (S i) Hc) as [e [He Hok]].
    destruct (body i c1) as [o1|e1]; simpl.
    + rewrite He. simpl. exists e. split; [reflexivity|].
      intros out1 H. apply bind_ok_inv in H as [out' [Hout' _]]. exact (Hok _ Hout').
    + exists e1. split; [reflexivity|]. intros out1 H. discriminate H.
Qed.

Lemma extract_loop_skip (body : nat -> row -> res (option record)) rows1 c rows2 i :
  (forall i j c, body i c = body j c) ->
  (forall j, body j c = Ok None) ->
  extract_loop body i (rows1 ++ c :: rows2) = extract_loop body i (rows1 ++ rows2).
Proof.
  intros Hidx Hc. revert i. induction rows1 as [|c1 rows1 IH]; intros i; simpl.
  - rewrite Hc. simpl.
    transitivity (extract_loop body (S i) rows2);
      [destruct (extract_loop body (S i) rows2); reflexivity | apply extract_loop_index; exact Hidx].
  - rewrite IH. reflexivity.
Qed.

Lemma erste_body_amount strptime cutoff i c o :
  erste_body strptime cutoff i c = Ok o -> erste_amount_ok c o.
Proof.
  intros H r Hr. subst o. unfold_body. invert_ok; try discriminate;
    (do 2 eexists; split; [reflexivity|]; split; [reflexivity|];
     simpl; split; intros; try congruence;
     match goal with H : (_ && _) = false |- _ => rewrite andb_false_iff in H end;
     intuition congruence).
Qed.

Lemma erste_body_both strptime cutoff i c dt desc dep pay :
  row_date strptime ERSTEBANK c = Some dt -> dt_lt cutoff dt = true ->
  dict_get c "Opis plaæanja, kurs" = Some desc ->
  dict_get c "Uplate" = Some dep -> dict_get c "Isplate" = Some pay ->
  nonempty (continental_to_point dep) = true ->
  nonempty (continental_to_point pay) = true ->
  erste_body strptime cutoff i c = Err (ValueError (both_directions_msg desc i)).
Proof.
  intros Hd Hlt Hdesc Hdep Hpay Hi Ho.
  unfold row_date in Hd. simpl fst in Hd. simpl snd in Hd.
  unfold erste_body, getitem, py_strptime. cbv zeta. unfold bind.
  destruct (dict_get c "Datum izvršenja"); [|discriminate].
  rewrite Hd. unfold dt_lt in Hlt. destruct (dt_le dt cutoff); [discriminate|].
  rewrite Hdesc, Hdep, Hpay, Hi, Ho. reflexivity.
Qed.

Lemma erste_body_both_empty strptime cutoff i c dt desc ben :
  row_date strptime ERSTEBANK c = Some dt -> dt_lt cutoff dt = true ->
  dict_get c "Opis plaæanja, kurs" = Some desc ->
  dict_get c "Uplate" = Some "" -> dict_get c "Isplate" = Some "" ->
  dict_get c "Primalac" = Some ben ->
  erste_body strptime cutoff i c =
    Ok (Some (mkrec (if nonempty ben then desc ++ " to " ++ ben else desc) "-" (strftime_Ymd dt))).
Proof.
  intros Hd Hlt Hdesc Hdep Hpay Hben.
  unfold row_date in Hd. simpl fst in Hd. simpl snd in Hd.
  unfold erste_body, getitem, py_strptime. cbv zeta. unfold bind.
  destruct (dict_get c "Datum izvršenja"); [|discriminate].
  rewrite Hd. unfold dt_lt in Hlt. destruct (dt_le dt cutoff); [discriminate|].
  rewrite Hdesc, Hdep, Hpay, Hben. reflexivity.
Qed.

(** C3, as stated, fails: the check is made on the normalised values, and a
    debit field ["."] normalises to the empty string, so a row whose debit
    and credit fields are both non-empty is converted. *)
Lemma erste_dot_debit_accepted :
  nonempty "." = true /\ nonempty "5,00" = true /\
  extract strptime_fixed decimal_of_ascii ascii_strip ascii_lower ERSTEBANK sample_cutoff false [erste_row "05.02.2023" "." "5,00"] =
    Ok [mkrec "Rent to Landlord" "-5.00" "2023-02-05"].
Proof. vm_compute. repeat split. Qed.

(** C3 (amended): for ErsteBank the debit and credit values are first
    normalised (every [.] removed, then [,] turned into [.]).  After the
    cutoff, a row whose two normalised values are both non-empty fails the
    whole extraction, with an error naming its description and its line
    (0-based); in every record, when the normalised debit is non-empty the
    normalised credit is empty and the amount is the normalised debit, and
    otherwise the amount is the normalised credit prefixed with [-]. *)
Theorem erste_debit_credit strptime Decimal strip lower cutoff is_reimbursement :
  (forall rows out, extract strptime Decimal strip lower ERSTEBANK cutoff is_reimbursement rows = Ok out ->
     exists os, Forall2 erste_amount_ok rows os /\ out = flat os) /\
  (forall rows1 c rows2 dt desc dep pay,
     row_date strptime ERSTEBANK c = Some dt -> dt_lt cutoff dt = true ->
     dict_get c "Opis plaæanja, kurs" = Some desc ->
     dict_get c "Uplate" = Some dep -> dict_get c "Isplate" = Some pay ->
     nonempty (continental_to_point dep) = true ->
     nonempty (continental_to_point pay) = true ->
     exists e, extract strptime Decimal strip lower ERSTEBANK cutoff is_reimbursement (rows1 ++ c :: rows2) = Err e /\
       (forall out1, extract strptime Decimal strip lower ERSTEBANK cutoff is_reimbursement rows1 = Ok out1 ->
          e = ValueError (both_directions_msg desc (length rows1)))).
Proof.
  split.
  - intros rows out. rewrite extract_as_loop. apply extract_loop_rows.
    intros j c o H. exact (erste_body_amount strptime cutoff j c o H).
  - intros rows1 c rows2 dt desc dep pay Hd Hlt Hdesc Hdep Hpay Hi Ho.
    rewrite !extract_as_loop. apply extract_loop_err_at.
    simpl adapter_body. eapply erste_body_both; eassumption.
Qed.

Lemma erste_debit_credit_witness :
  exists e, extract strptime_fixed decimal_of_ascii ascii_strip ascii_lower ERSTEBANK sample_cutoff false
              ([] ++ erste_row "05.02.2023" "100,00" "5,00" :: []) = Err e /\
    (forall out1, extract strptime_fixed decimal_of_ascii ascii_strip ascii_lower ERSTEBANK sample_cutoff false [] = Ok out1 ->
       e = ValueError (both_directions_msg "Rent" (length (@nil row)))).
Proof.
  apply (proj2 (erste_debit_credit strptime_fixed decimal_of_ascii ascii_strip ascii_lower sample_cutoff false) []
           (erste_row "05.02.2023" "100,00" "5,00") [] (mkdt 2023 2 5 0 0 0)
           "Rent" "100,00" "5,00"); vm_compute; reflexivity.
Defined.

(** C9: for ErsteBank, a row after the cutoff whose debit and credit
    fields are both empty is not rejected: it is taken as a payment and its
    record's amount is the bare ["-"]. *)
Theorem erste_both_empty strptime Decimal strip lower cutoff is_reimbursement c dt desc ben :
  row_date strptime ERSTEBANK c = Some dt -> dt_lt cutoff dt = true ->
  dict_get c "Opis plaæanja, kurs" = Some desc ->
  dict_get c "Uplate" = Some "" -> dict_get c "Isplate" = Some "" ->
  dict_get c "Primalac" = Some ben ->
  exists r, extract strptime Decimal strip lower ERSTEBANK cutoff is_reimbursement [c] = Ok [r] /\ r_amount r = "-".
Proof.
  intros Hd Hlt Hdesc Hdep Hpay Hben.
  eexists. split.
  - simpl. unfold _extract_erste_data. simpl extract_loop.
    rewrite (erste_body_both_empty strptime cutoff 0 c dt desc ben); try assumption.
    reflexivity.
  - reflexivity.
Qed.

Lemma erste_both_empty_witness :
  exists r, extract strptime_fixed decimal_of_ascii ascii_strip ascii_lower ERSTEBANK sample_cutoff false [erste_row "05.02.2023" "" ""] = Ok [r] /\
    r_amount r = "-".
Proof.
  apply (erste_both_empty strptime_fixed decimal_of_ascii ascii_strip ascii_lower sample_cutoff false (erste_row "05.02.2023" "" "")
           (mkdt 2023 2 5 0 0 0) "Rent" "Landlord"); vm_compute; reflexivity.
Defined.

Ltac eqb_to_eq :=
  repeat match goal with
  | H : String.eqb _ _ = true |- _ => apply String.eqb_eq in H
  end.

Lemma wise_body_amount strptime Decimal cutoff i c o :
  wise_body strptime Decimal cutoff i c = Ok o -> (wise_amount_ok Decimal) c o.
Proof.
  intros H r Hr. subst o. unfold_body. invert_ok; try discriminate; eqb_to_eq; subst;
    (do 7 eexists;
     do 7 (split; [first [reflexivity | eassumption]|]);
     first [ left; split; [reflexivity|]; split; [reflexivity|];
             eexists; split; [first [reflexivity | eassumption] | reflexivity]
           | right; split; [reflexivity|]; split; [reflexivity|];
             eexists; split; [first [reflexivity | eassumption] | reflexivity]]).
Qed.

Lemma wise_body_other_direction strptime Decimal cutoff i c dt :
  row_date strptime WISE c = Some dt -> dt_lt cutoff dt = true ->
  dict_get c "Direction" <> Some "IN" -> dict_get c "Direction" <> Some "OUT" ->
  exists e, wise_body strptime Decimal cutoff i c = Err e.
Proof.
  intros Hd Hlt Hin Hout.
  destruct (wise_body strptime Decimal cutoff i c) as [o|e] eqn:E; [exfalso | eauto].
  unfold row_date in Hd. simpl fst in Hd. simpl snd in Hd.
  unfold_body. invert_ok; unfold dt_lt in *; eqb_to_eq; subst; try congruence;
    match goal with
    | H1 : strptime ?x ?y = Some ?a, H2 : strptime ?x ?y = Some ?b |- _ =>
        rewrite H1 in H2; injection H2 as <-
    end;
    match goal with H : dt_le _ _ = true |- _ => rewrite H in Hlt; discriminate end.
Qed.

(** C4, as stated, fails: the fee is rounded half up to two decimals before
    it is added, so the amount is not the base amount plus the fee. *)
Lemma wise_fee_rounded :
  extract strptime_fixed decimal_of_ascii ascii_strip ascii_lower WISE sample_cutoff false [wise_row "IN" "10" "0.005"] =
    Ok [mkrec "Received from Alice" "10.01" "2023-02-01"] /\
  (b <- decimal_of_ascii "10" ;; f <- decimal_of_ascii "0.005" ;;
   t <- dec_add b f ;; Ok (dec_str t)) = Ok "10.005".
Proof. vm_compute. split; reflexivity. Qed.

(** C4 (amended): for Wise, after the cutoff, the amount of a record is
    [str] of the base amount plus the fee rounded half up to two decimals
    (decimal addition); it is written as it is, with the description
    ["Received from X"], when the direction is ["IN"], and prefixed with
    [-], with the description ["Sent to Y"], when it is ["OUT"]; a row
    after the cutoff with any other direction makes the whole extraction
    fail with an error. *)
Theorem wise_amounts strptime Decimal strip lower cutoff is_reimbursement :
  (forall rows out, extract strptime Decimal strip lower WISE cutoff is_reimbursement rows = Ok out ->
     exists os, Forall2 (wise_amount_ok Decimal) rows os /\ out = flat os) /\
  (forall rows1 c rows2 dt,
     row_date strptime WISE c = Some dt -> dt_lt cutoff dt = true ->
     dict_get c "Direction" <> Some "IN" -> dict_get c "Direction" <> Some "OUT" ->
     exists e, extract strptime Decimal strip lower WISE cutoff is_reimbursement (rows1 ++ c :: rows2) = Err e).
Proof.
  split.
  - intros rows out. rewrite extract_as_loop. apply extract_loop_rows.
    intros j c o H. exact (wise_body_amount strptime Decimal cutoff j c o H).
  - intros rows1 c rows2 dt Hd Hlt Hin Hout.
    destruct (wise_body_other_direction strptime Decimal cutoff (0 + length rows1) c dt Hd Hlt Hin Hout)
      as [e' He'].
    rewrite extract_as_loop.
    destruct (extract_loop_err_at (adapter_body strptime Decimal strip lower WISE cutoff is_reimbursement)
                rows1 c rows2 0 e' He') as [e [He _]].
    exists e. exact He.
Qed.

Lemma wise_amounts_witness :
  exists e, extract strptime_fixed decimal_of_ascii ascii_strip ascii_lower WISE sample_cutoff false
              ([wise_row "IN" "1.00" "0.10"] ++ wise_row "SIDEWAYS" "1.00" "0.10" :: []) = Err e.
Proof.
  apply (proj2 (wise_amounts strptime_fixed decimal_of_ascii ascii_strip ascii_lower sample_cutoff false) [wise_row "IN" "1.00" "0.10"]
           (wise_row "SIDEWAYS" "1.00" "0.10") [] (mkdt 2023 2 1 9 0 0));
    vm_compute; first [reflexivity | discriminate].
Defined.

(** ** Revolut: the state filter comes first *)

(** C5: for Revolut, a row whose [State] is not ["COMPLETED"] is skipped
    before its date is read: removing it leaves the result of the
    extraction unchanged, whatever its [Completed Date] holds or lacks. *)
Theorem revolut_state_skip strptime Decimal strip lower cutoff is_reimbursement rows1 c rows2 st :
  dict_get c "State" = Some st -> st <> "COMPLETED" ->
  extract strptime Decimal strip lower REVOLUT cutoff is_reimbursement (rows1 ++ c :: rows2) =
  extract strptime Decimal strip lower REVOLUT cutoff is_reimbursement (rows1 ++ rows2).
Proof.
  intros Hst Hne. simpl. unfold _extract_revolut_data.
  apply extract_loop_skip; [intros; reflexivity|].
  intros j. unfold revolut_body, getitem. cbv zeta. unfold bind. rewrite Hst.
  destruct (String.eqb_spec st "COMPLETED"); [contradiction | reflexivity].
Qed.

Lemma revolut_state_skip_witness :
  extract strptime_fixed decimal_of_ascii ascii_strip ascii_lower REVOLUT sample_cutoff true
    ([revolut_row "COMPLETED" "2023-02-01 10:00:00" "-12.345"] ++
     revolut_row "REVERTED" "" "-1.00" :: [revolut_row "COMPLETED" "2023-02-03 10:00:00" "-0.125"]) =
  extract strptime_fixed decimal_of_ascii ascii_strip ascii_lower REVOLUT sample_cutoff true
    ([revolut_row "COMPLETED" "2023-02-01 10:00:00" "-12.345"] ++
     [revolut_row "COMPLETED" "2023-02-03 10:00:00" "-0.125"]).
Proof.
  apply (revolut_state_skip strptime_fixed decimal_of_ascii ascii_strip ascii_lower sample_cutoff true
           [revolut_row "COMPLETED" "2023-02-01 10:00:00" "-12.345"]
           (revolut_row "REVERTED" "" "-1.00")
           [revolut_row "COMPLETED" "2023-02-03 10:00:00" "-0.125"] "REVERTED");
    vm_compute; [reflexivity | discriminate].
Defined.

Lemma starling_body_desc strptime Decimal strip lower cutoff is_reimbursement i c o :
  starling_body strptime Decimal strip lower cutoff is_reimbursement i c = Ok o -> (starling_desc_ok strip lower) c o.
Proof.
  intros H r Hr. subst o. unfold_body. invert_ok; try discriminate;
    (do 2 eexists; split; [reflexivity|]; split; [reflexivity|]; reflexivity).
Qed.

(** C6: for Starling, when the stripped counterparty and reference are
    equal once lower-cased the description is the (stripped) counterparty
    alone, and otherwise it is ["reference (to: counterparty)"]; [strip]
    and [lower] are [str.strip] and [str.lower], whatever they do on
    non-ASCII text. *)
Theorem starling_description strptime Decimal strip lower cutoff is_reimbursement rows out :
  extract strptime Decimal strip lower STARLING cutoff is_reimbursement rows = Ok out ->
  exists os, Forall2 (starling_desc_ok strip lower) rows os /\ out = flat os.
Proof.
  rewrite extract_as_loop. apply extract_loop_rows.
  intros j c o H. exact (starling_body_desc strptime Decimal strip lower cutoff is_reimbursement j c o H).
Qed.

Lemma starling_description_witness :
  extract strptime_fixed decimal_of_ascii ascii_strip ascii_lower STARLING sample_cutoff true
    [starling_row "Tesco" "TESCO" "-3.50"; starling_row "Bob" "rent" "-500"] =
    Ok [mkrec "Tesco" "3.50" "2023-02-05"; mkrec "rent (to: Bob)" "500.00" "2023-02-05"] /\
  exists os, Forall2 (starling_desc_ok ascii_strip ascii_lower)
    [starling_row "Tesco" "TESCO" "-3.50"; starling_row "Bob" "rent" "-500"] os /\
    [mkrec "Tesco" "3.50" "2023-02-05"; mkrec "rent (to: Bob)" "500.00" "2023-02-05"] = flat os.
Proof.
  split; [vm_compute; reflexivity|].
  apply (starling_description strptime_fixed decimal_of_ascii ascii_strip ascii_lower sample_cutoff true
           [starling_row "Tesco" "TESCO" "-3.50"; starling_row "Bob" "rent" "-500"]).
  vm_compute. reflexivity.
Defined.

(** ** The writer *)


(** C8: when Revolut or Starling is chosen without the reimbursement flag,
    or the flag is given with another source or with a target other than
    Wave, [main] stops before the input file is read (and nothing is
    written): with a [BadParameter] error, or earlier if the user declines
    to overwrite an existing output. *)
Theorem main_rejects_incompatible file_type target_platform is_reimbursement
    out_exists confirm_yes read_result :
  incompatible_options file_type target_platform is_reimbursement ->
  let '(trace, oc) := main file_type target_platform is_reimbursement
                        out_exists confirm_yes read_result in
  (forall s, ~ In (ReadInput s) trace) /\ (forall t, ~ In (WriteOutput t) trace) /\
  ((exists msg, oc = BadParameter msg) \/ (oc = Aborted /\ out_exists = true)).
Proof.
  intros Hinc. unfold incompatible_options in Hinc.
  destruct file_type, target_platform, is_reimbursement, out_exists, confirm_yes;
    simpl in Hinc; try (exfalso; intuition discriminate); simpl;
    (split; [intros s Hs; simpl in Hs; intuition discriminate|]);
    (split; [intros t Ht; simpl in Ht; intuition discriminate|]);
    first [left; eexists; reflexivity | right; split; reflexivity].
Qed.

Lemma main_rejects_incompatible_witness :
  incompatible_options REVOLUT FREEAGENT true /\
  let '(trace, oc) := main REVOLUT FREEAGENT true true true (Ok []) in
  (forall s, ~ In (ReadInput s) trace) /\ (forall t, ~ In (WriteOutput t) trace) /\
  ((exists msg, oc = BadParameter msg) \/ (oc = Aborted /\ true = true)).
Proof.
  assert (H : incompatible_options REVOLUT FREEAGENT true)
    by (right; split; [reflexivity | right; reflexivity]).
  split; [exact H|].
  exact (main_rejects_incompatible REVOLUT FREEAGENT true true true (Ok []) H).
Defined.

(** ** Reimbursement mode on a zero amount *)

Lemma reimbursement_amount_zero Decimal a s e :
  Decimal a = Ok (DFinite s 0 e) -> reimbursement_amount Decimal a = Ok (Some "0.00").
Proof. intros H. unfold reimbursement_amount. rewrite H. destruct s; reflexivity. Qed.

(** C10, as stated, fails: a zero amount is kept, but the negation of a
    zero decimal is its absolute value, so the amount is ["0.00"] and not
    ["-0.00"] (also for a source amount ["-0.00"]). *)
Lemma reimbursement_zero_unsigned :
  extract strptime_fixed decimal_of_ascii ascii_strip ascii_lower REVOLUT sample_cutoff true
    [revolut_row "COMPLETED" "2023-02-01 10:00:00" "0";
     revolut_row "COMPLETED" "2023-02-02 10:00:00" "-0.00"] =
    Ok [mkrec "Shop Ltd" "0.00" "2023-02-01"; mkrec "Shop Ltd" "0.00" "2023-02-02"] /\
  "0.00" <> "-0.00".
Proof. vm_compute. split; [reflexivity | discriminate]. Qed.

(** C10 (amended): in reimbursement mode (Revolut and Starling), a row that
    the adapter would convert and whose amount is zero (of either sign, with
    any number of decimals) is not dropped: it gives the same record with
    the amount ["0.00"]. *)
Theorem reimbursement_zero_kept strptime Decimal strip lower source cutoff c r0 a s e :
  in_revolut_starling source = true ->
  extract strptime Decimal strip lower source cutoff false [c] = Ok [r0] ->
  dict_get c (amount_column source) = Some a ->
  Decimal a = Ok (DFinite s 0 e) ->
  extract strptime Decimal strip lower source cutoff true [c] = Ok [mkrec (r_description r0) "0.00" (r_date r0)].
Proof.
  intros Hs H Ha Hz.
  pose proof (reimbursement_amount_zero Decimal a s e Hz) as Hr.
  destruct source; try discriminate Hs; simpl in Ha |- *;
    unfold _extract_revolut_data, _extract_starling_data in *; simpl extract_loop in *;
    apply bind_ok_inv in H as [o [Ho H]]; simpl in H;
    destruct o as [r|]; try discriminate; injection H as <-;
    unfold revolut_body, starling_body, getitem, py_strptime in *; cbv zeta in *;
    invert_ok; try discriminate; unfold bind;
    repeat match goal with
    | H : ?x = Some _ |- context [?x] => rewrite H
    | H : ?x = false |- context [?x] => rewrite H
    end;
    injection Ha as <-; rewrite Hr; reflexivity.
Qed.

Lemma reimbursement_zero_kept_witness :
  in_revolut_starling STARLING = true /\
  extract strptime_fixed decimal_of_ascii ascii_strip ascii_lower STARLING sample_cutoff false [starling_row "Tesco" "TESCO" "-0.00"] =
    Ok [mkrec "Tesco" "-0.00" "2023-02-05"] /\
  dict_get (starling_row "Tesco" "TESCO" "-0.00") (amount_column STARLING) = Some "-0.00" /\
  decimal_of_ascii "-0.00" = Ok (DFinite true 0 (-2)) /\
  extract strptime_fixed decimal_of_ascii ascii_strip ascii_lower STARLING sample_cutoff true [starling_row "Tesco" "TESCO" "-0.00"] =
    Ok [mkrec "Tesco" "0.00" "2023-02-05"].
Proof.
  split; [reflexivity|]. split; [vm_compute; reflexivity|].
  split; [reflexivity|]. split; [vm_compute; reflexivity|].
  exact (reimbursement_zero_kept strptime_fixed decimal_of_ascii ascii_strip ascii_lower STARLING sample_cutoff
           (starling_row "Tesco" "TESCO" "-0.00") (mkrec "Tesco" "-0.00" "2023-02-05")
           "-0.00" true (-2) eq_refl (eq_refl) eq_refl eq_refl).
Defined.

(** * Further properties of the code *)

Lemma has_char_replace1 a s : has_char a (replace1 a "" s) = false.
Proof.
  induction s as [|b s IH]; simpl; [reflexivity|].
  unfold char_eqb. destruct (Ascii.eqb_spec b a) as [->|Hne]; simpl; [exact IH|].
  unfold char_eqb. destruct (Ascii.eqb_spec b a); [contradiction|]. exact IH.
Qed.

Lemma neat_body_fields strptime cutoff i c o :
  neat_body strptime cutoff i c = Ok o -> neat_record_ok c o.
Proof.
  intros H r Hr. subst o. unfold_body. invert_ok; try discriminate.
  split; reflexivity.
Qed.

Lemma airwallex_body_fields strptime cutoff i c o :
  airwallex_body strptime cutoff i c = Ok o -> airwallex_record_ok c o.
Proof.
  intros H r Hr. subst o. unfold_body. invert_ok; try discriminate;
  repeat match goal with
  | H : AirwallexType_of _ = Ok _ |- _ =>
      unfold AirwallexType_of in H;
      repeat match type of H with
      | (if String.eqb ?x ?y then _ else _) = _ =>
          destruct (String.eqb_spec x y); [subst|]
      end; try discriminate H; injection H as <-
  end; simpl in *; try discriminate.
  all: split; [reflexivity|].
  all: first [ left; split; [reflexivity|]; eexists; split; reflexivity
             | right; left; split; [reflexivity|]; eexists; split; reflexivity
             | right; right; split; reflexivity ].
Qed.

Lemma erste_body_fields strptime cutoff i c o :
  erste_body strptime cutoff i c = Ok o -> erste_description_ok c o.
Proof.
  intros H r Hr. subst o. unfold_body. invert_ok; try discriminate;
    do 3 eexists; (split; [reflexivity|]); (split; [reflexivity|]); (split; [reflexivity|]);
    simpl; repeat match goal with H : nonempty _ = _ |- _ => rewrite H end; reflexivity.
Qed.

Lemma revolut_body_fields strptime Decimal cutoff is_reimbursement i c o :
  revolut_body strptime Decimal cutoff is_reimbursement i c = Ok o -> revolut_record_ok is_reimbursement c o.
Proof.
  intros H r Hr. subst o. unfold_body. invert_ok; try discriminate;
  match goal with H : negb (String.eqb ?v "COMPLETED") = false |- _ =>
    apply negb_false_iff, String.eqb_eq in H; subst v end;
  simpl; (split; [reflexivity|]); (split; [apply has_char_replace1|]);
  (split; [eexists; split; reflexivity|]); intros; first [reflexivity | discriminate].
Qed.

Lemma payoneer_body_fields strptime cutoff i c o :
  payoneer_body strptime cutoff i c = Ok o -> payoneer_record_ok c o.
Proof.
  intros H r Hr. subst o. unfold_body. invert_ok; try discriminate.
  simpl. split; [apply has_char_replace1|]. split; [apply has_char_replace1|].
  do 2 eexists. repeat split.
Qed.

Lemma currenxie_body_fields strptime strip cutoff i c o :
  currenxie_body strptime strip cutoff i c = Ok o -> (currenxie_record_ok strip) c o.
Proof.
  intros H r Hr. subst o. unfold_body. invert_ok; try discriminate.
  simpl. split; [reflexivity|]. do 2 eexists. repeat split.
Qed.

Lemma adapter_body_none strptime Decimal strip lower source cutoff is_reimbursement i c :
  unfiltered source is_reimbursement = true ->
  adapter_body strptime Decimal strip lower source cutoff is_reimbursement i c = Ok None ->
  exists dt, row_date strptime source c = Some dt /\ dt_le dt cutoff = true.
Proof.
  intros Hu H. unfold row_date.
  destruct source; simpl in Hu; try discriminate Hu; simpl fst; simpl snd; unfold_body;
    try (destruct is_reimbursement; [discriminate Hu|]);
    invert_ok; try discriminate;
    rewrite_dict_get; eexists; split; first [eassumption | reflexivity].
Qed.

Lemma flat_length_filter (f : row -> bool) rows (os : list (option record)) :
  Forall2 (fun c o => match o with Some _ => f c = true | None => f c = false end) rows os ->
  length (flat os) = length (filter f rows).
Proof.
  induction 1 as [|c o rows os Hco Hrest IH]; [reflexivity|].
  destruct o; simpl; rewrite Hco; simpl; rewrite IH; reflexivity.
Qed.

(** For the adapters without a row filter (all but Revolut, and
    Starling outside reimbursement mode), a successful extraction gives
    exactly one record per row dated after the cutoff. *)
Theorem extract_counts_rows_after_cutoff strptime Decimal strip lower source cutoff is_reimbursement rows out :
  unfiltered source is_reimbursement = true ->
  extract strptime Decimal strip lower source cutoff is_reimbursement rows = Ok out ->
  length out = length (filter (after_cutoff strptime source cutoff) rows).
Proof.
  intros Hu H. rewrite extract_as_loop in H.
  apply (extract_loop_rows
           (fun c o => match o with
                       | Some _ => after_cutoff strptime source cutoff c = true
                       | None => after_cutoff strptime source cutoff c = false end))
    in H as [os [Hos ->]]; [apply flat_length_filter; exact Hos|].
  intros j c o Hb. unfold after_cutoff. destruct o as [r|].
  - destruct (adapter_body_cutoff _ _ _ _ _ _ _ _ _ _ Hb) as [_ Hs].
    destruct (Hs r eq_refl) as [dt [-> [Hlt _]]]. exact Hlt.
  - destruct (adapter_body_none _ _ _ _ _ _ _ _ _ Hu Hb) as [dt [-> Hle]].
    unfold dt_lt. rewrite Hle. reflexivity.
Qed.

Lemma adapter_body_index strptime Decimal strip lower source cutoff is_reimbursement :
  source <> ERSTEBANK ->
  forall i j c, adapter_body strptime Decimal strip lower source cutoff is_reimbursement i c =
                adapter_body strptime Decimal strip lower source cutoff is_reimbursement j c.
Proof. intros Hs i j c. destruct source; [..|reflexivity]; try reflexivity; contradiction. Qed.

Lemma adapter_body_before_cutoff strptime Decimal strip lower source cutoff is_reimbursement i c dt :
  row_date strptime source c = Some dt -> dt_le dt cutoff = true ->
  (source = REVOLUT -> dict_get c "State" <> None) ->
  adapter_body strptime Decimal strip lower source cutoff is_reimbursement i c = Ok None.
Proof.
  intros Hd Hle Hst. unfold row_date in Hd.
  destruct source; simpl fst in Hd; simpl snd in Hd; unfold_body; unfold bind;
    try (destruct (dict_get c "State") as [st|]; [|exfalso; apply Hst; reflexivity];
         destruct (negb (String.eqb st "COMPLETED")); [reflexivity|]);
    destruct (dict_get c _); try discriminate Hd; rewrite Hd, Hle; reflexivity.
Qed.

(** For every source but ErsteBank (whose error messages carry the row
    number), removing a row dated at or before the cutoff does not change
    the result of the extraction, error or not: no other field of such a
    row is read (Revolut reads its [State] first). *)
Theorem extract_drop_row_before_cutoff strptime Decimal strip lower source cutoff is_reimbursement rows1 c rows2 dt :
  source <> ERSTEBANK ->
  row_date strptime source c = Some dt -> dt_le dt cutoff = true ->
  (source = REVOLUT -> dict_get c "State" <> None) ->
  extract strptime Decimal strip lower source cutoff is_reimbursement (rows1 ++ c :: rows2) =
  extract strptime Decimal strip lower source cutoff is_reimbursement (rows1 ++ rows2).
Proof.
  intros Hs Hd Hle Hst. rewrite !extract_as_loop.
  apply extract_loop_skip; [apply adapter_body_index; exact Hs|].
  intros j. eapply adapter_body_before_cutoff; eassumption.
Qed.





Lemma wise_body_missing_direction_key strptime Decimal cutoff i c dt dir a f base fee fee' total :
  row_date strptime WISE c = Some dt -> dt_lt cutoff dt = true ->
  dict_get c "Direction" = Some dir -> dir <> "IN" -> dir <> "OUT" ->
  dict_get c "Source amount (after fees)" = Some a -> dict_get c "Source fee amount" = Some f ->
  Decimal a = Ok base -> Decimal f = Ok fee ->
  quantize_half_up fee cents = Ok fee' -> dec_add base fee' = Ok total ->
  dict_get c "direction" = None ->
  wise_body strptime Decimal cutoff i c = Err (KeyError "direction").
Proof.
  intros Hd Hlt Hdir Hin Hout Ha Hf Hb Hfe Hq Hs Hk.
  unfold row_date in Hd. simpl fst in Hd. simpl snd in Hd.
  unfold_body. unfold bind. unfold dt_lt in Hlt.
  destruct (dict_get c "Created on"); [|discriminate]. rewrite Hd.
  destruct (dt_le dt cutoff); [discriminate|].
  rewrite Hdir, Ha, Hb, Hf, Hfe, Hq, Hs.
  destruct (String.eqb_spec dir "IN"); [contradiction|].
  destruct (String.eqb_spec dir "OUT"); [contradiction|].
  rewrite Hk. reflexivity.
Qed.

(** For Wise, a row after the cutoff whose direction is neither [IN]
    nor [OUT], whose amounts convert and whose sum raises no decimal
    exception, fails the extraction with
    [KeyError('direction')] (the message reads the lower-case key), not with
    the intended [ValueError], when the row has no [direction] column and
    the rows before it convert. *)
Theorem wise_unknown_direction_keyerror strptime Decimal strip lower cutoff is_reimbursement rows1 c rows2
    dt dir a f base fee fee' total :
  row_date strptime WISE c = Some dt -> dt_lt cutoff dt = true ->
  dict_get c "Direction" = Some dir -> dir <> "IN" -> dir <> "OUT" ->
  dict_get c "Source amount (after fees)" = Some a -> dict_get c "Source fee amount" = Some f ->
  Decimal a = Ok base -> Decimal f = Ok fee ->
  quantize_half_up fee cents = Ok fee' -> dec_add base fee' = Ok total ->
  dict_get c "direction" = None ->
  exists e, extract strptime Decimal strip lower WISE cutoff is_reimbursement (rows1 ++ c :: rows2) = Err e /\
    (forall out1, extract strptime Decimal strip lower WISE cutoff is_reimbursement rows1 = Ok out1 ->
       e = KeyError "direction").
Proof.
  intros. rewrite !extract_as_loop. apply extract_loop_err_at.
  simpl adapter_body. eapply wise_body_missing_direction_key; eassumption.
Qed.

Lemma wise_body_sum_error strptime Decimal cutoff i c dt dir a f base fee fee' e0 :
  row_date strptime WISE c = Some dt -> dt_lt cutoff dt = true ->
  dict_get c "Direction" = Some dir ->
  dict_get c "Source amount (after fees)" = Some a -> dict_get c "Source fee amount" = Some f ->
  Decimal a = Ok base -> Decimal f = Ok fee ->
  quantize_half_up fee cents = Ok fee' -> dec_add base fee' = Err e0 ->
  wise_body strptime Decimal cutoff i c = Err e0.
Proof.
  intros Hd Hlt Hdir Ha Hf Hb Hfe Hq Hs.
  unfold row_date in Hd. simpl fst in Hd. simpl snd in Hd.
  unfold_body. unfold bind. unfold dt_lt in Hlt.
  destruct (dict_get c "Created on"); [|discriminate]. rewrite Hd.
  destruct (dt_le dt cutoff); [discriminate|].
  rewrite Hdir, Ha, Hb, Hf, Hfe, Hq, Hs. reflexivity.
Qed.

(** For Wise, a row after the cutoff whose amounts convert but whose sum of
    the base amount and the rounded fee raises a decimal exception (the
    trapped [Overflow] when the sum exceeds the largest exponent [Emax], as
    for a base amount [1E+1000000], or [InvalidOperation] for [Infinity]
    plus [-Infinity]) fails the extraction, whatever its direction, and
    with that exception when the rows before it convert. *)
Theorem wise_sum_exception_fails strptime Decimal strip lower cutoff is_reimbursement rows1 c rows2
    dt dir a f base fee fee' e0 :
  row_date strptime WISE c = Some dt -> dt_lt cutoff dt = true ->
  dict_get c "Direction" = Some dir ->
  dict_get c "Source amount (after fees)" = Some a -> dict_get c "Source fee amount" = Some f ->
  Decimal a = Ok base -> Decimal f = Ok fee ->
  quantize_half_up fee cents = Ok fee' -> dec_add base fee' = Err e0 ->
  exists e, extract strptime Decimal strip lower WISE cutoff is_reimbursement (rows1 ++ c :: rows2) = Err e /\
    (forall out1, extract strptime Decimal strip lower WISE cutoff is_reimbursement rows1 = Ok out1 ->
       e = e0).
Proof.
  intros. rewrite !extract_as_loop. apply extract_loop_err_at.
  simpl adapter_body. eapply wise_body_sum_error; eassumption.
Qed.

Lemma reimbursement_amount_ok_number Decimal a o :
  reimbursement_amount Decimal a = Ok o ->
  match Decimal a with
  | Ok (DFinite _ _ _) | Ok (DInf false) => True
  | _ => False
  end.
Proof.
  unfold reimbursement_amount. destruct (Decimal a) as [d|e]; simpl; [|discriminate].
  destruct d as [s c e | [|] | s p | s p]; simpl; try tauto; discriminate.
Qed.

(** In reimbursement mode (Revolut, Starling), a row after the cutoff
    whose amount is not a decimal number, is a NaN or is [-Infinity] fails
    the whole extraction. *)
Theorem reimbursement_non_number_fails strptime Decimal strip lower source cutoff rows1 c rows2 dt a :
  in_revolut_starling source = true ->
  row_date strptime source c = Some dt -> dt_lt cutoff dt = true ->
  (source = REVOLUT -> dict_get c "State" = Some "COMPLETED") ->
  dict_get c (amount_column source) = Some a ->
  match Decimal a with
  | Ok (DFinite _ _ _) | Ok (DInf false) => False
  | _ => True
  end ->
  exists e, extract strptime Decimal strip lower source cutoff true (rows1 ++ c :: rows2) = Err e.
Proof.
  intros Hs Hd Hlt Hst Ha Hbad. rewrite extract_as_loop.
  destruct (adapter_body strptime Decimal strip lower source cutoff true (0 + length rows1) c) as [o|e'] eqn:Hb.
  - exfalso. unfold row_date in Hd. unfold dt_lt in Hlt.
    destruct source; try discriminate Hs; [specialize (Hst eq_refl) | clear Hst];
      simpl fst in Hd; simpl snd in Hd; simpl in Ha;
      unfold_body; invert_ok; try discriminate;
      rewrite_dict_get;
      repeat match goal with H : Some _ = Some _ |- _ => injection H as H; subst end;
      repeat match goal with
      | H1 : ?x = Some ?p, H2 : ?x = Some ?q |- _ =>
          rewrite H1 in H2; injection H2 as H2; subst q
      end;
      repeat match goal with H : dt_le _ _ = true |- _ => rewrite H in Hlt end;
      try discriminate;
      match goal with H : reimbursement_amount _ _ = Ok _ |- _ =>
        apply reimbursement_amount_ok_number in H end;
      destruct (Decimal a) as [[]|]; try destruct sign; tauto.
  - destruct (extract_loop_err_at _ rows1 c rows2 0 e' Hb) as [e [He _]].
    exists e. exact He.
Qed.

(** ** The written file determines the records *)













(** ** The output path *)

Lemma slen_app (a b : string) : String.length (a ++ b) = String.length a + String.length b.
Proof. induction a as [|x a IH]; simpl; [reflexivity | rewrite IH; reflexivity]. Qed.

Lemma has_char_app c (a b : string) : has_char c (a ++ b) = has_char c a || has_char c b.
Proof. induction a as [|x a IH]; simpl; [reflexivity | rewrite IH, orb_assoc; reflexivity]. Qed.

Lemma substring_length (s : string) : forall i n,
  i + n <= String.length s -> String.length (substring i n s) = n.
Proof.
  induction s as [|x s IH]; intros [|i] [|n] H; simpl in *; try lia; try reflexivity.
  - rewrite IH; [reflexivity | lia].
  - apply IH. lia.
  - apply IH. lia.
Qed.

Lemma has_char_substring c (s : string) : forall i n,
  has_char c s = false -> has_char c (substring i n s) = false.
Proof.
  induction s as [|x s IH]; intros [|i] [|n] H; simpl in *; try reflexivity; try exact H.
  - apply orb_false_iff in H as [H1 H2]. rewrite H1. simpl. apply IH. exact H2.
  - apply orb_false_iff in H as [_ H2]. apply IH. exact H2.
  - apply orb_false_iff in H as [_ H2]. apply IH. exact H2.
Qed.

Lemma stem_suffix_length p :
  String.length (path_stem p) + String.length (path_suffix p) = String.length (path_name p).
Proof.
  unfold path_stem, path_suffix. destruct (rfind "."%char (path_name p)) as [i|]; [|simpl; lia].
  destruct ((0 <? i)%nat && (i <? String.length (path_name p) - 1)%nat) eqn:E; [|simpl; lia].
  apply andb_true_iff in E as [_ E]. apply Nat.ltb_lt in E.
  rewrite !substring_length by lia. lia.
Qed.

Lemma stem_suffix_no_char c p :
  has_char c (path_name p) = false ->
  has_char c (path_stem p) = false /\ has_char c (path_suffix p) = false.
Proof.
  intros H. unfold path_stem, path_suffix.
  destruct (rfind "."%char (path_name p)) as [i|]; [|split; [exact H | reflexivity]].
  destruct (_ && _); (split; [|reflexivity]) || split; try exact H;
    apply has_char_substring; exact H.
Qed.

(** The output path of [main] lies in the directory of the input file,
    is named stem + [_CONVERTED_<TYPE>_TO_<TARGET>] + suffix, and is never
    the input file itself. *)
Theorem converted_out_path_sibling file_path file_type_enum target_platform_enum :
  nonempty (path_name file_path) = true ->
  has_char "/"%char (path_name file_path) = false ->
  exists out_path,
    converted_out_path file_path file_type_enum target_platform_enum = Ok out_path /\
    removelast (p_parts out_path) = removelast (p_parts file_path) /\
    path_name out_path =
      (path_stem file_path ++ "_CONVERTED_" ++ InputSource_name file_type_enum ++ "_TO_"
       ++ OutputSource_name target_platform_enum ++ path_suffix file_path)%string /\
    out_path <> file_path.
Proof.
  intros Hne Hsl. destruct (stem_suffix_no_char _ _ Hsl) as [Hst Hsu].
  unfold converted_out_path, with_name. rewrite Hne. simpl negb. cbv iota.
  set (n := (path_stem file_path ++ _)%string).
  assert (Hn : has_char "/"%char n = false).
  { subst n. rewrite has_char_app, Hst.
    destruct file_type_enum, target_platform_enum; simpl; exact Hsu. }
  assert (Hlen : String.length n =
                 String.length (path_name file_path) + 15 +
                 String.length (InputSource_name file_type_enum) +
                 String.length (OutputSource_name target_platform_enum)).
  { subst n. rewrite <- stem_suffix_length. do 4 (rewrite ?slen_app; simpl). lia. }
  assert (Hnn : nonempty n = true).
  { destruct n; [simpl in Hlen; lia | reflexivity]. }
  assert (Hdot : String.eqb n "." = false).
  { apply String.eqb_neq. intros Hd. rewrite Hd in Hlen. simpl in Hlen. lia. }
  rewrite Hnn, Hn, Hdot. simpl.
  eexists. split; [reflexivity|]. simpl.
  rewrite removelast_last. split; [reflexivity|].
  unfold path_name at 1. simpl. rewrite last_last. split; [reflexivity|].
  intros Heq. assert (Hname : path_name {| p_parts := removelast (p_parts file_path) ++ [n] |} =
                              path_name file_path) by (rewrite Heq; reflexivity).
  unfold path_name at 1 in Hname. simpl in Hname. rewrite last_last in Hname.
  rewrite Hname in Hlen. lia.
Qed.

(** ** Extract-level statements *)

(** For Neat, every record's description and amount are the row's
    [Description] and [Transaction Amount] fields, unchanged. *)
Theorem neat_records_fields strptime Decimal strip lower cutoff is_reimbursement rows out :
  extract strptime Decimal strip lower NEAT cutoff is_reimbursement rows = Ok out ->
  exists os, Forall2 neat_record_ok rows os /\ out = flat os.
Proof.
  rewrite extract_as_loop. apply extract_loop_rows.
  intros j c o H. exact (neat_body_fields strptime cutoff j c o H).
Qed.

Lemma neat_records_fields_witness :
  exists os, Forall2 neat_record_ok sample_neat_rows os /\
    [mkrec "b" "2" "2023-01-01"] = flat os.
Proof.
  apply (neat_records_fields strptime_fixed decimal_of_ascii ascii_strip ascii_lower sample_cutoff false sample_neat_rows).
  vm_compute. reflexivity.
Defined.

(** For Airwallex, every record's amount is the row's [Net Amount];
    its description is ["Deposit from " ++ Remitter Name] for a [Deposit],
    ["Payout to " ++ Beneficiary Bank Account Name] for a [Payout] and
    ["Fee"] for a [Fee]. *)
Theorem airwallex_records_fields strptime Decimal strip lower cutoff is_reimbursement rows out :
  extract strptime Decimal strip lower AIRWALLEX cutoff is_reimbursement rows = Ok out ->
  exists os, Forall2 airwallex_record_ok rows os /\ out = flat os.
Proof.
  rewrite extract_as_loop. apply extract_loop_rows.
  intros j c o H. exact (airwallex_body_fields strptime cutoff j c o H).
Qed.

Lemma airwallex_records_fields_witness :
  extract strptime_fixed decimal_of_ascii ascii_strip ascii_lower AIRWALLEX sample_cutoff false
    [airwallex_row "Deposit"; airwallex_row "Payout"; airwallex_row "Fee"] =
    Ok [mkrec "Deposit from ACME" "42.00" "2023-03-01"; mkrec "Payout to Bob" "42.00" "2023-03-01";
        mkrec "Fee" "42.00" "2023-03-01"] /\
  exists os, Forall2 airwallex_record_ok
    [airwallex_row "Deposit"; airwallex_row "Payout"; airwallex_row "Fee"] os /\
    [mkrec "Deposit from ACME" "42.00" "2023-03-01"; mkrec "Payout to Bob" "42.00" "2023-03-01";
     mkrec "Fee" "42.00" "2023-03-01"] = flat os.
Proof.
  split; [vm_compute; reflexivity|].
  apply (airwallex_records_fields strptime_fixed decimal_of_ascii ascii_strip ascii_lower sample_cutoff false).
  vm_compute. reflexivity.
Defined.

(** For ErsteBank, a record's description is the payment description,
    followed by [" from "] (incoming payment) or [" to "] (outgoing payment)
    and the recipient when the recipient field is non-empty. *)
Theorem erste_records_description strptime Decimal strip lower cutoff is_reimbursement rows out :
  extract strptime Decimal strip lower ERSTEBANK cutoff is_reimbursement rows = Ok out ->
  exists os, Forall2 erste_description_ok rows os /\ out = flat os.
Proof.
  rewrite extract_as_loop. apply extract_loop_rows.
  intros j c o H. exact (erste_body_fields strptime cutoff j c o H).
Qed.

Lemma erste_records_description_witness :
  extract strptime_fixed decimal_of_ascii ascii_strip ascii_lower ERSTEBANK sample_cutoff false
    [erste_row "05.02.2023" "1.250,00" ""; erste_row "06.02.2023" "" "80,00"] =
    Ok [mkrec "Rent from Landlord" "1250.00" "2023-02-05";
        mkrec "Rent to Landlord" "-80.00" "2023-02-06"] /\
  exists os, Forall2 erste_description_ok
    [erste_row "05.02.2023" "1.250,00" ""; erste_row "06.02.2023" "" "80,00"] os /\
    [mkrec "Rent from Landlord" "1250.00" "2023-02-05";
     mkrec "Rent to Landlord" "-80.00" "2023-02-06"] = flat os.
Proof.
  split; [vm_compute; reflexivity|].
  apply (erste_records_description strptime_fixed decimal_of_ascii ascii_strip ascii_lower sample_cutoff false).
  vm_compute. reflexivity.
Defined.

(** For Revolut, every record comes from a [COMPLETED] row, its
    description is the row's description with every comma removed (so it
    holds no comma), and outside reimbursement mode its amount is the row's
    [Amount] unchanged. *)
Theorem revolut_records_fields strptime Decimal strip lower cutoff is_reimbursement rows out :
  extract strptime Decimal strip lower REVOLUT cutoff is_reimbursement rows = Ok out ->
  exists os, Forall2 (revolut_record_ok is_reimbursement) rows os /\ out = flat os.
Proof.
  rewrite extract_as_loop. apply extract_loop_rows.
  intros j c o H. exact (revolut_body_fields strptime Decimal cutoff is_reimbursement j c o H).
Qed.

Lemma revolut_records_fields_witness :
  extract strptime_fixed decimal_of_ascii ascii_strip ascii_lower REVOLUT sample_cutoff false sample_revolut_rows =
    Ok [mkrec "Shop Ltd" "-12.345" "2023-02-01"; mkrec "Shop Ltd" "5.00" "2023-02-02";
        mkrec "Shop Ltd" "-0.125" "2023-02-03"] /\
  exists os, Forall2 (revolut_record_ok false) sample_revolut_rows os /\
    [mkrec "Shop Ltd" "-12.345" "2023-02-01"; mkrec "Shop Ltd" "5.00" "2023-02-02";
     mkrec "Shop Ltd" "-0.125" "2023-02-03"] = flat os.
Proof.
  split; [vm_compute; reflexivity|].
  apply (revolut_records_fields strptime_fixed decimal_of_ascii ascii_strip ascii_lower sample_cutoff false).
  vm_compute. reflexivity.
Defined.

(** For Payoneer, a record's amount and description are the row's
    fields with every comma removed: neither holds a comma. *)
Theorem payoneer_records_no_comma strptime Decimal strip lower cutoff is_reimbursement rows out :
  extract strptime Decimal strip lower PAYONEER cutoff is_reimbursement rows = Ok out ->
  exists os, Forall2 payoneer_record_ok rows os /\ out = flat os.
Proof.
  rewrite extract_as_loop. apply extract_loop_rows.
  intros j c o H. exact (payoneer_body_fields strptime cutoff j c o H).
Qed.

Lemma payoneer_records_no_comma_witness :
  extract strptime_fixed decimal_of_ascii ascii_strip ascii_lower PAYONEER sample_cutoff false
    [payoneer_row "07 Mar, 2023" "-1,234.50" "Fee, monthly"] =
    Ok [mkrec "Fee monthly" "-1234.50" "2023-03-07"] /\
  exists os, Forall2 payoneer_record_ok [payoneer_row "07 Mar, 2023" "-1,234.50" "Fee, monthly"] os /\
    [mkrec "Fee monthly" "-1234.50" "2023-03-07"] = flat os.
Proof.
  split; [vm_compute; reflexivity|].
  apply (payoneer_records_no_comma strptime_fixed decimal_of_ascii ascii_strip ascii_lower sample_cutoff false).
  vm_compute. reflexivity.
Defined.

(** For Currenxie, a record's amount is the row's [*Amount]; its
    description is the row's description alone when the reference is
    empty, and otherwise [(description + " - " + reference).strip()],
    with Python's [str.strip]. *)
Theorem currenxie_records_fields strptime Decimal strip lower cutoff is_reimbursement rows out :
  extract strptime Decimal strip lower CURRENXIE cutoff is_reimbursement rows = Ok out ->
  exists os, Forall2 (currenxie_record_ok strip) rows os /\ out = flat os.
Proof.
  rewrite extract_as_loop. apply extract_loop_rows.
  intros j c o H. exact (currenxie_body_fields strptime strip cutoff j c o H).
Qed.

Lemma currenxie_records_fields_witness :
  extract strptime_fixed decimal_of_ascii ascii_strip ascii_lower CURRENXIE sample_cutoff false
    [currenxie_row "Transfer" "INV-7 "; currenxie_row "Fee" ""] =
    Ok [mkrec "Transfer - INV-7" "-20.00" "2023-03-15"; mkrec "Fee" "-20.00" "2023-03-15"] /\
  exists os, Forall2 (currenxie_record_ok ascii_strip)
    [currenxie_row "Transfer" "INV-7 "; currenxie_row "Fee" ""] os /\
    [mkrec "Transfer - INV-7" "-20.00" "2023-03-15"; mkrec "Fee" "-20.00" "2023-03-15"] = flat os.
Proof.
  split; [vm_compute; reflexivity|].
  apply (currenxie_records_fields strptime_fixed decimal_of_ascii ascii_strip ascii_lower sample_cutoff false).
  vm_compute. reflexivity.
Defined.

Lemma extract_counts_rows_after_cutoff_witness :
  unfiltered NEAT false = true /\
  extract strptime_fixed decimal_of_ascii ascii_strip ascii_lower NEAT sample_cutoff false sample_neat_rows = Ok [mkrec "b" "2" "2023-01-01"] /\
  length [mkrec "b" "2" "2023-01-01"] =
    length (filter (after_cutoff strptime_fixed NEAT sample_cutoff) sample_neat_rows).
Proof.
  split; [reflexivity|]. split; [vm_compute; reflexivity|].
  apply (extract_counts_rows_after_cutoff strptime_fixed decimal_of_ascii ascii_strip ascii_lower NEAT sample_cutoff false); vm_compute;
    reflexivity.
Defined.

Lemma extract_drop_row_before_cutoff_witness :
  extract strptime_fixed decimal_of_ascii ascii_strip ascii_lower REVOLUT sample_cutoff false
    ([] ++ revolut_row "COMPLETED" "2022-12-31 23:59:59" "-9" ::
     [revolut_row "COMPLETED" "2023-02-01 10:00:00" "-1"]) =
  extract strptime_fixed decimal_of_ascii ascii_strip ascii_lower REVOLUT sample_cutoff false
    ([] ++ [revolut_row "COMPLETED" "2023-02-01 10:00:00" "-1"]).
Proof.
  apply (extract_drop_row_before_cutoff strptime_fixed decimal_of_ascii ascii_strip ascii_lower REVOLUT sample_cutoff false []
           (revolut_row "COMPLETED" "2022-12-31 23:59:59" "-9")
           [revolut_row "COMPLETED" "2023-02-01 10:00:00" "-1"] (mkdt 2022 12 31 23 59 59));
    [discriminate | vm_compute; reflexivity | vm_compute; reflexivity | intros _; discriminate].
Defined.



Lemma wise_unknown_direction_keyerror_witness :
  exists e, extract strptime_fixed decimal_of_ascii ascii_strip ascii_lower WISE sample_cutoff false
              ([] ++ wise_row "SIDEWAYS" "1.00" "0.10" :: []) = Err e /\
    (forall out1, extract strptime_fixed decimal_of_ascii ascii_strip ascii_lower WISE sample_cutoff false [] = Ok out1 ->
       e = KeyError "direction").
Proof.
  apply (wise_unknown_direction_keyerror strptime_fixed decimal_of_ascii ascii_strip ascii_lower sample_cutoff false []
           (wise_row "SIDEWAYS" "1.00" "0.10") [] (mkdt 2023 2 1 9 0 0) "SIDEWAYS" "1.00" "0.10"
           (DFinite false 100 (-2)) (DFinite false 10 (-2)) (DFinite false 10 (-2))
           (DFinite false 110 (-2)));
    first [vm_compute; reflexivity | discriminate].
Defined.

Lemma wise_sum_exception_fails_witness :
  exists e, extract strptime_fixed decimal_of_ascii ascii_strip ascii_lower WISE sample_cutoff false
              ([] ++ wise_row "IN" "1E+1000000" "0" :: []) = Err e /\
    (forall out1, extract strptime_fixed decimal_of_ascii ascii_strip ascii_lower WISE sample_cutoff false [] = Ok out1 ->
       e = Overflow).
Proof.
  apply (wise_sum_exception_fails strptime_fixed decimal_of_ascii ascii_strip ascii_lower sample_cutoff false []
           (wise_row "IN" "1E+1000000" "0") [] (mkdt 2023 2 1 9 0 0) "IN" "1E+1000000" "0"
           (DFinite false 1 1000000) (DFinite false 0 0) (DFinite false 0 (-2)));
    vm_compute; reflexivity.
Defined.

Lemma reimbursement_non_number_fails_witness :
  exists e, extract strptime_fixed decimal_of_ascii ascii_strip ascii_lower REVOLUT sample_cutoff true
              ([] ++ revolut_row "COMPLETED" "2023-02-01 10:00:00" "n/a" :: []) = Err e.
Proof.
  apply (reimbursement_non_number_fails strptime_fixed decimal_of_ascii ascii_strip ascii_lower REVOLUT sample_cutoff []
           (revolut_row "COMPLETED" "2023-02-01 10:00:00" "n/a") [] (mkdt 2023 2 1 10 0 0) "n/a");
    first [vm_compute; reflexivity | intros _; reflexivity | vm_compute; exact I].
Defined.


Lemma converted_out_path_sibling_witness :
  exists out_path,
    converted_out_path sample_path REVOLUT WAVE = Ok out_path /\
    removelast (p_parts out_path) = removelast (p_parts sample_path) /\
    path_name out_path =
      (path_stem sample_path ++ "_CONVERTED_" ++ InputSource_name REVOLUT ++ "_TO_"
       ++ OutputSource_name WAVE ++ path_suffix sample_path)%string /\
    out_path <> sample_path.
Proof.
  apply converted_out_path_sibling; vm_compute; reflexivity.
Defined.
